(** * Spatial vectors (vector.py): a shallow embedding and its properties

    The embedding follows [vector.py] statement by statement.  Python
    lists are mutable objects, so they live in a store and are named by
    references; Python numbers are integers of any size or binary64
    floats; every operation may raise an exception. *)

From Stdlib Require Import ZArith Floats Lia.
From Stdlib Require Import Strings.String.
From stdpp Require Import base option list.

Local Open Scope Z_scope.

(* Decimal float literals stand for the nearest binary64, as in Python. *)
Set Warnings "-inexact-float".

(** ** Python numbers *)

(** A coordinate is a Python [int] or a Python [float]. *)
Inductive pyval : Type :=
  | PyInt (z : Z)
  | PyFloat (f : float).

(** The exceptions the module can raise. *)
Inductive exn : Type :=
  | IndexError
  | ZeroDivisionError
  | OverflowError
  | ValueError.

(** The result of evaluating an expression: a value or a raised exception. *)
Inductive outcome (A : Type) : Type :=
  | Ret (a : A)
  | Raise (e : exn).
Arguments Ret {A} a.
Arguments Raise {A} e.

Definition outcome_bind {A B : Type} (o : outcome A) (k : A -> outcome B) : outcome B :=
  match o with
  | Ret a => k a
  | Raise e => Raise e
  end.

#[export] Instance outcome_mret : MRet outcome := fun A a => Ret a.
#[export] Instance outcome_mbind : MBind outcome := fun A B k o => outcome_bind o k.

Module Num.

(** [float(z)] for an [int]: the nearest binary64 (ties to even);
    [OverflowError] when the rounded value is out of range. *)
Definition of_int (z : Z) : outcome float :=
  match binary_normalize prec emax z 0 false with
  | S754_infinity _ => Raise OverflowError
  | s => Ret (SF2Prim s)
  end.

(** The conversion every mixed operation applies to its operands. *)
Definition to_float (v : pyval) : outcome float :=
  match v with
  | PyInt z => of_int z
  | PyFloat f => Ret f
  end.

(** [a + b], [a - b], [a * b]: exact on two ints, binary64 otherwise. *)
Definition arith (fz : Z -> Z -> Z) (ff : float -> float -> float)
    (a b : pyval) : outcome pyval :=
  match a, b with
  | PyInt x, PyInt y => Ret (PyInt (fz x y))
  | _, _ =>
      x ← to_float a;
      y ← to_float b;
      Ret (PyFloat (ff x y))
  end.

Definition add : pyval -> pyval -> outcome pyval := arith Z.add PrimFloat.add.
Definition sub : pyval -> pyval -> outcome pyval := arith Z.sub PrimFloat.sub.
Definition mul : pyval -> pyval -> outcome pyval := arith Z.mul PrimFloat.mul.

(** [a / b] on two floats: Python raises [ZeroDivisionError] on a zero
    divisor (of either sign) instead of producing an infinity. *)
Definition truediv (a b : float) : outcome float :=
  if PrimFloat.eqb b 0%float then Raise ZeroDivisionError
  else Ret (PrimFloat.div a b).

(** C's [fmod x y] for [y] finite and not zero: the exact remainder of
    the truncated division, with the sign of [x]. *)
Definition fmod (x y : float) : float :=
  match Prim2SF x, Prim2SF y with
  | S754_nan, _ | _, S754_nan => nan
  | S754_infinity _, _ => nan
  | _, S754_zero _ => nan
  | S754_zero _, _ => x
  | S754_finite _ _ _, S754_infinity _ => x
  | S754_finite sx mx ex, S754_finite _ my ey =>
      let e := Z.min ex ey in
      let r := Z.rem (Z.pos mx * 2 ^ (ex - e)) (Z.pos my * 2 ^ (ey - e)) in
      SF2Prim (binary_normalize prec emax (if sx then - r else r) e sx)
  end.

(** [a % b] on floats (CPython's [float_rem]): the result takes the
    sign of the divisor. *)
Definition float_rem (vx wx : float) : outcome float :=
  if PrimFloat.eqb wx 0%float then Raise ZeroDivisionError
  else
    let m := fmod vx wx in
    if negb (PrimFloat.eqb m 0%float) then
      if negb (Bool.eqb (PrimFloat.ltb wx 0%float) (PrimFloat.ltb m 0%float))
      then Ret (PrimFloat.add m wx)
      else Ret m
    else Ret (if PrimFloat.ltb wx 0%float then neg_zero else zero).

(** [a % b]: floor remainder on two ints, [float_rem] otherwise. *)
Definition modulo (a b : pyval) : outcome pyval :=
  match a, b with
  | PyInt x, PyInt y =>
      if Z.eqb y 0 then Raise ZeroDivisionError else Ret (PyInt (x mod y))
  | _, _ =>
      x ← to_float a;
      y ← to_float b;
      r ← float_rem x y;
      Ret (PyFloat r)
  end.

(** The exact value of a finite float [f] compared with the integer
    [z]; [None] for an infinity or a NaN. *)
Definition compare_float_int (f : float) (z : Z) : option comparison :=
  match Prim2SF f with
  | S754_zero _ => Some (0 ?= z)
  | S754_finite s m e =>
      let n := if s then Z.neg m else Z.pos m in
      if 0 <=? e then Some (n * 2 ^ e ?= z)
      else Some (n ?= z * 2 ^ (- e))
  | S754_infinity s => Some (if s then Lt else Gt)
  | S754_nan => None
  end.

(** [a == b]: Python compares an int and a float by their exact
    values, with no rounding. *)
Definition eqb (a b : pyval) : bool :=
  match a, b with
  | PyInt x, PyInt y => Z.eqb x y
  | PyFloat x, PyFloat y => PrimFloat.eqb x y
  | PyFloat x, PyInt y =>
      match compare_float_int x y with Some Eq => true | _ => false end
  | PyInt x, PyFloat y =>
      match compare_float_int y x with Some Eq => true | _ => false end
  end.

(** [a >= b], by exact values as well. *)
Definition geb (a b : pyval) : bool :=
  match a, b with
  | PyInt x, PyInt y => Z.leb y x
  | PyFloat x, PyFloat y => PrimFloat.leb y x
  | PyFloat x, PyInt y =>
      match compare_float_int x y with
      | Some Eq | Some Gt => true
      | _ => false
      end
  | PyInt x, PyFloat y =>
      match compare_float_int y x with
      | Some Eq | Some Lt => true
      | _ => false
      end
  end.

(** [math.sqrt]: converts its argument to a float and raises
    [ValueError] outside the domain (a NaN result of a non-NaN
    argument). *)
Definition sqrt (v : pyval) : outcome float :=
  x ← to_float v;
  let r := PrimFloat.sqrt x in
  if is_nan r && negb (is_nan x) then Raise ValueError else Ret r.

End Num.

(** ** The store, and the monad of Python statements *)

(** A reference to a Python list. *)
Definition loc : Type := nat.

(** What [str] returns, kept symbolic: the text of a list of numbers or
    of one number. *)
Inductive shown : Type :=
  | ShowList (l : list pyval)
  | ShowNum (v : pyval).

(** The program state: the lists allocated so far (a reference is a
    position in [heap]; allocation appends) and the lines printed so
    far, each a label and the text that follows it. *)
Record state : Type := mkState {
  heap : list (list pyval);
  stdout : list (string * shown)
}.

(** A statement runs in a state and leaves a state, also when it raises. *)
Definition M (A : Type) : Type := state -> outcome A * state.

Definition M_ret {A : Type} (a : A) : M A := fun s => (Ret a, s).

Definition M_bind {A B : Type} (m : M A) (k : A -> M B) : M B :=
  fun s =>
    match m s with
    | (Ret a, s') => k a s'
    | (Raise e, s') => (Raise e, s')
    end.

#[export] Instance M_mret : MRet M := fun A a => M_ret a.
#[export] Instance M_mbind : MBind M := fun A B k m => M_bind m k.

(** An expression with no effect on the store. *)
Definition lift {A : Type} (o : outcome A) : M A := fun s => (o, s).

(** The list a reference names. *)
Definition deref (s : state) (r : loc) : list pyval := default [] (heap s !! r).

(** Python's index rule: a negative index counts from the end. *)
Definition py_index (len : nat) (i : Z) : option nat :=
  let j := if i <? 0 then i + Z.of_nat len else i in
  if (0 <=? j) && (j <? Z.of_nat len) then Some (Z.to_nat j) else None.

(** A list display [[v0, v1, ...]]: a new list. *)
Definition list_new (l : list pyval) : M loc :=
  fun s => (Ret (length (heap s)), mkState (heap s ++ [l]) (stdout s)).

(** [a[:]]: a new list with the elements of [a]. *)
Definition list_copy (a : loc) : M loc :=
  fun s => list_new (deref s a) s.

(** [len(a)]. *)
Definition list_len (a : loc) : M nat :=
  fun s => (Ret (length (deref s a)), s).

(** [a[i]]: [IndexError] outside the list. *)
Definition list_getitem (a : loc) (i : Z) : M pyval :=
  fun s =>
    match py_index (length (deref s a)) i ≫= fun j => deref s a !! j with
    | Some v => (Ret v, s)
    | None => (Raise IndexError, s)
    end.

(** [a[i] = v]: [IndexError] outside the list; a list never grows by
    assignment. *)
Definition list_setitem (a : loc) (i : Z) (v : pyval) : M unit :=
  fun s =>
    match py_index (length (deref s a)) i with
    | Some j => (Ret tt, mkState (<[a := <[j := v]> (deref s a)]> (heap s)) (stdout s))
    | None => (Raise IndexError, s)
    end.

(** [print(label + text)]. *)
Definition print (label : string) (text : shown) : M unit :=
  fun s => (Ret tt, mkState (heap s) (stdout s ++ [(label, text)])).

(** [for i in xs: acc = body(i, acc)], the local variables the body
    rebinds being [acc]. *)
Fixpoint for_in {S : Type} (xs : list nat) (body : nat -> S -> M S) (acc : S) : M S :=
  match xs with
  | [] => mret acc
  | i :: xs' => acc' ← body i acc; for_in xs' body acc'
  end.

(** [range(n)]. *)
Definition range (n : nat) : list nat := seq 0 n.

(** ** class Vector *)

(** A Vector object: the reference held by [self._coords] and the
    dimension [self._n]. *)
Record Vector : Type := mkVector {
  _coords : loc;
  _n : nat
}.
Arguments mkVector (_coords _n)%_nat_scope.

(** A value a method returns: a number, a list or a Vector. *)
Inductive pyobj : Type :=
  | ObjNum (v : pyval)
  | ObjList (r : loc)
  | ObjVector (v : Vector).
Arguments ObjList r%_nat_scope.

(** [Vector.__init__]: [self._coords = a[:]; self._n = len(a)]. *)
Definition Vector__init__ (a : loc) : M Vector :=
  c ← list_copy a;
  n ← list_len a;
  mret (mkVector c n).

(** [Vector.__getitem__]. *)
Definition Vector__getitem__ (self : Vector) (i : Z) : M pyval :=
  list_getitem (_coords self) i.

(** The body shared by [__add__], [__sub__] and [scale]:
    [result[i] = <element>], the element computed first. *)
Definition store_element (result : loc) (i : nat) (element : M pyval) : M unit :=
  v ← element;
  list_setitem result (Z.of_nat i) v.

(** [Vector.__add__]. *)
Definition Vector__add__ (self other : Vector) : M Vector :=
  result ← list_new [];
  for_in (range (_n self)) (fun i _ =>
    store_element result i (
      a ← list_getitem (_coords self) (Z.of_nat i);
      b ← list_getitem (_coords other) (Z.of_nat i);
      lift (Num.add a b))) tt;;
  Vector__init__ result.

(** [Vector.__sub__]. *)
Definition Vector__sub__ (self other : Vector) : M Vector :=
  result ← list_new [];
  for_in (range (_n self)) (fun i _ =>
    store_element result i (
      a ← list_getitem (_coords self) (Z.of_nat i);
      b ← list_getitem (_coords other) (Z.of_nat i);
      lift (Num.sub a b))) tt;;
  Vector__init__ result.

(** [Vector.scale]. *)
Definition scale (self : Vector) (alpha : pyval) : M Vector :=
  result ← list_new [];
  for_in (range (_n self)) (fun i _ =>
    store_element result i (
      a ← list_getitem (_coords self) (Z.of_nat i);
      lift (Num.mul alpha a))) tt;;
  Vector__init__ result.

(** [Vector.dot]: [result = 0], then [result += self[i] * other[i]]. *)
Definition dot (self other : Vector) : M pyval :=
  for_in (range (_n self)) (fun i result =>
    a ← list_getitem (_coords self) (Z.of_nat i);
    b ← list_getitem (_coords other) (Z.of_nat i);
    p ← lift (Num.mul a b);
    lift (Num.add result p)) (PyInt 0).

(** One coordinate of the cross product:
    [self._coords[i] * other._coords[j] - self._coords[j] * other._coords[i]]. *)
Definition cross_term (self other : Vector) (i j : Z) : M pyval :=
  a ← list_getitem (_coords self) i;
  b ← list_getitem (_coords other) j;
  p ← lift (Num.mul a b);
  c ← list_getitem (_coords self) j;
  d ← list_getitem (_coords other) i;
  q ← lift (Num.mul c d);
  lift (Num.sub p q).

(** [Vector.cross]: it returns the list [result] itself, where the
    other operations return [Vector(result)]. *)
Definition cross (self other : Vector) : M pyobj :=
  result ← list_new [PyInt 0; PyInt 0; PyInt 0];
  if Nat.eqb (_n self) 3 then
    t0 ← cross_term self other 1 2;
    list_setitem result 0 t0;;
    t1 ← cross_term self other 2 0;
    list_setitem result 1 t1;;
    t2 ← cross_term self other 0 1;
    list_setitem result 2 t2;;
    mret (ObjList result)
  else
    result' ← list_new [];
    mret (ObjList result').

(** [Vector.__abs__]: [math.sqrt(self.dot(self))]. *)
Definition Vector__abs__ (self : Vector) : M float :=
  d ← dot self self;
  lift (Num.sqrt d).

(** [Vector.direction]: [self.scale(1.0 / abs(self))]. *)
Definition direction (self : Vector) : M Vector :=
  m ← Vector__abs__ self;
  alpha ← lift (Num.truediv 1%float m);
  scale self (PyFloat alpha).

(** [Vector.__str__]: [str(self._coords)]. *)
Definition Vector__str__ (self : Vector) : M shown :=
  fun s => (Ret (ShowList (deref s (_coords self))), s).

(** [Vector.__len__]. *)
Definition Vector__len__ (self : Vector) : M nat := mret (_n self).

(** ** Degree trigonometry and class Spherical *)

(** [deg % 360]: the first statement of [sin_d] and of [cos_d]. *)
Definition reduce (deg : pyval) : outcome pyval := Num.modulo deg (PyInt 360).

Section Trig.

(** [math.radians], [math.sin] and [math.cos] on floats: functions of
    the platform's C library, left as parameters. *)
Variables math_radians math_sin math_cos : float -> float.

(** [sin_d]. *)
Definition sin_d (deg : pyval) : outcome pyval :=
  deg ← reduce deg;
  if Num.eqb deg (PyInt 90) then Ret (PyFloat 1)
  else if Num.eqb deg (PyInt 180) then Ret (PyInt 0)
  else if Num.eqb deg (PyInt 270) then Ret (PyFloat (-1))
  else
    x ← Num.to_float deg;
    let rad := math_radians x in
    Ret (PyFloat (math_sin rad)).

(** [cos_d]. *)
Definition cos_d (deg : pyval) : outcome pyval :=
  deg ← reduce deg;
  if Num.eqb deg (PyInt 90) then Ret (PyInt 0)
  else if Num.eqb deg (PyInt 180) then Ret (PyFloat (-1))
  else if Num.eqb deg (PyInt 270) then Ret (PyInt 0)
  else
    x ← Num.to_float deg;
    let rad := math_radians x in
    Ret (PyFloat (math_cos rad)).

(** [Spherical.__init__]: the three products, then [Vector.__init__]
    on the list [[i, j, k]]. *)
Definition Spherical__init__ (a : loc) : M Vector :=
  a0 ← list_getitem a 0;
  a1 ← list_getitem a 1;
  c ← lift (cos_d a1);
  t ← lift (Num.mul a0 c);
  a2 ← list_getitem a 2;
  s ← lift (sin_d a2);
  i ← lift (Num.mul t s);
  a0 ← list_getitem a 0;
  a1 ← list_getitem a 1;
  c ← lift (sin_d a1);
  t ← lift (Num.mul a0 c);
  a2 ← list_getitem a 2;
  s ← lift (sin_d a2);
  j ← lift (Num.mul t s);
  a0 ← list_getitem a 0;
  a2 ← list_getitem a 2;
  c ← lift (cos_d a2);
  k ← lift (Num.mul a0 c);
  l ← list_new [i; j; k];
  Vector__init__ l.

End Trig.

(** ** The demonstration routine *)

Definition xCoords_literal : list pyval :=
  [PyFloat 1; PyFloat 2; PyFloat 3; PyFloat 4].
Definition yCoords_literal : list pyval :=
  [PyFloat 5; PyFloat 2; PyFloat 4; PyFloat 1].

(** [main]. *)
Definition main : M unit :=
  xCoords ← list_new xCoords_literal;
  yCoords ← list_new yCoords_literal;
  x ← Vector__init__ xCoords;
  y ← Vector__init__ yCoords;
  t ← Vector__str__ x; print "x        = " t;;
  t ← Vector__str__ y; print "y        = " t;;
  v ← Vector__add__ x y; t ← Vector__str__ v; print "x + y    = " t;;
  v ← scale x (PyFloat 10); t ← Vector__str__ v; print "10x      = " t;;
  m ← Vector__abs__ x; print "|x|      = " (ShowNum (PyFloat m));;
  d ← dot x y; print "<x, y>   = " (ShowNum d);;
  v ← Vector__sub__ x y; m ← Vector__abs__ v; print "|x - y|  = " (ShowNum (PyFloat m)).

(** The state a fresh interpreter starts in. *)
Definition initial : state := mkState [] [].

(** * Definitions used to state the properties *)

(** A Vector is well formed in a state when its dimension is the length
    of the list it holds: what [Vector.__init__] establishes. *)
Definition wf (s : state) (x : Vector) : Prop :=
  length (deref s (_coords x)) = _n x.

(** [Vector(l)] on a list display [l]. *)
Definition plain_Vector (l : list pyval) : M Vector :=
  a ← list_new l;
  Vector__init__ a.

(** An expression that leaves the state as it found it. *)
Definition pure_read {A : Type} (m : M A) : Prop := forall s, (m s).2 = s.

(** The state after [result = []]. *)
Definition with_empty_result (s : state) : state :=
  mkState (heap s ++ [[]]) (stdout s).

(** The common shape of [__add__], [__sub__] and [scale]. *)
Definition elementwise (n : nat) (element : nat -> M pyval) : M Vector :=
  result ← list_new [];
  for_in (range n) (fun i _ => store_element result i (element i)) tt;;
  Vector__init__ result.

(** The call returned a zero-dimensional Vector. *)
Definition returns_zero_vector (r : outcome Vector * state) : Prop :=
  exists v, r.1 = Ret v /\ _n v = 0%nat /\ deref r.2 (_coords v) = [].

(** The running sum of the element-wise products, left to right from
    [acc], in Python's arithmetic: what "the sum of the element-wise
    products" denotes for numbers that round. *)
Fixpoint sum_of_products (acc : pyval) (xs ys : list pyval) : outcome pyval :=
  match xs, ys with
  | x :: xs', y :: ys' =>
      p ← Num.mul x y;
      acc' ← Num.add acc p;
      sum_of_products acc' xs' ys'
  | _, _ => Ret acc
  end.

(** The same sum over the integers, where nothing rounds. *)
Fixpoint int_sum_of_products (xs ys : list Z) : Z :=
  match xs, ys with
  | x :: xs', y :: ys' => x * y + int_sum_of_products xs' ys'
  | _, _ => 0
  end.

(** The loop body of [dot]. *)
Definition dot_body (x y : Vector) (i : nat) (result : pyval) : M pyval :=
  a ← list_getitem (_coords x) (Z.of_nat i);
  b ← list_getitem (_coords y) (Z.of_nat i);
  p ← lift (Num.mul a b);
  lift (Num.add result p).

(** [a * b - c * d], a coordinate of the cross product. *)
Definition cross_coordinate (a b c d : pyval) : outcome pyval :=
  p ← Num.mul a b;
  q ← Num.mul c d;
  Num.sub p q.

(** [o == v] for the outcome of a call: false when the call raised. *)
Definition returns_equal (o : outcome pyval) (v : pyval) : bool :=
  match o with
  | Ret a => Num.eqb a v
  | Raise _ => false
  end.

(** [0 <= v < 360]. *)
Definition in_0_360 (v : pyval) : bool :=
  Num.geb v (PyInt 0) && negb (Num.geb v (PyInt 360)).

(** [frames b m Q]: run in a state that holds at least [b] lists, [m]
    leaves the first [b] of them as they were, and what it returns
    satisfies [Q]. *)
Definition frames {A : Type} (b : nat) (m : M A) (Q : A -> Prop) : Prop :=
  forall s, (b <= length (heap s))%nat ->
    take b (heap (m s).2) = take b (heap s)
    /\ (b <= length (heap (m s).2))%nat
    /\ forall a, (m s).1 = Ret a -> Q a.

(** Any later change to the list [a]: its contents become [l]. *)
Definition mutate (a : loc) (l : list pyval) (s : state) : state :=
  mkState (<[a := l]> (heap s)) (stdout s).

(** The operations a client can invoke on the module. *)
Inductive call : Type :=
  | CallVector (a : loc)
  | CallSpherical (a : loc)
  | CallGetitem (x : Vector) (i : Z)
  | CallAdd (x y : Vector)
  | CallSub (x y : Vector)
  | CallScale (x : Vector) (alpha : pyval)
  | CallDot (x y : Vector)
  | CallCross (x y : Vector)
  | CallAbs (x : Vector)
  | CallDirection (x : Vector)
  | CallStr (x : Vector)
  | CallLen (x : Vector).

Section TrigClients.

Variables math_radians math_sin math_cos : float -> float.

(** The state an operation leaves, whether it returns or raises. *)
Definition exec (c : call) (s : state) : state :=
  match c with
  | CallVector a => (Vector__init__ a s).2
  | CallSpherical a => (Spherical__init__ math_radians math_sin math_cos a s).2
  | CallGetitem x i => (Vector__getitem__ x i s).2
  | CallAdd x y => (Vector__add__ x y s).2
  | CallSub x y => (Vector__sub__ x y s).2
  | CallScale x alpha => (scale x alpha s).2
  | CallDot x y => (dot x y s).2
  | CallCross x y => (cross x y s).2
  | CallAbs x => (Vector__abs__ x s).2
  | CallDirection x => (direction x s).2
  | CallStr x => (Vector__str__ x s).2
  | CallLen x => (Vector__len__ x s).2
  end.

(** The Cartesian coordinates the specification gives for [(r, azimuth,
    elevation)]: [x = r * cos_d(azimuth) * sin_d(elevation)],
    [y = r * sin_d(azimuth) * sin_d(elevation)] and
    [z = r * cos_d(elevation)]. *)
Definition spherical_coords (r azimuth elevation : pyval) :
    outcome (pyval * pyval * pyval) :=
  x ← (c ← cos_d math_radians math_cos azimuth; t ← Num.mul r c;
       s ← sin_d math_radians math_sin elevation; Num.mul t s);
  y ← (c ← sin_d math_radians math_sin azimuth; t ← Num.mul r c;
       s ← sin_d math_radians math_sin elevation; Num.mul t s);
  z ← (c ← cos_d math_radians math_cos elevation; Num.mul r c);
  Ret (x, y, z).

End TrigClients.

(** ** Concrete inputs *)

(** The two lines [main] prints before it raises. *)
Definition main_output : list (string * shown) :=
  [("x        = "%string, ShowList xCoords_literal);
   ("y        = "%string, ShowList yCoords_literal)].

(** [x] and [y] of [main], and the state [main] builds them in. *)
Definition main_x : Vector := mkVector 2 4.
Definition main_y : Vector := mkVector 3 4.
Definition main_state : state :=
  mkState [xCoords_literal; yCoords_literal; xCoords_literal; yCoords_literal] [].

(** A state that holds the lists given, each the coordinates of the
    Vector at its position. *)
Definition state_of (lists : list (list pyval)) : state := mkState lists [].
Definition vector_at (r : loc) (s : state) : Vector :=
  mkVector r (length (deref s r)).

(** A stand-in for the C library in closed examples; the cardinal
    angles never reach it. *)
Definition no_libm (x : float) : float := x.

(** * Properties *)

(** ** Running statements *)

Lemma run_bind {A B : Type} (m : M A) (k : A -> M B) (s : state) :
  (m ≫= k) s =
    match m s with
    | (Ret a, s') => k a s'
    | (Raise e, s') => (Raise e, s')
    end.
Proof. reflexivity. Qed.

Lemma run_lift_bind {A B : Type} (o : outcome A) (k : A -> M B) (s : state) :
  (lift o ≫= k) s =
    match o with
    | Ret a => k a s
    | Raise e => (Raise e, s)
    end.
Proof. rewrite run_bind. unfold lift. destruct o; reflexivity. Qed.

Lemma run_pure {A : Type} (m : M A) (s : state) :
  pure_read m -> m s = ((m s).1, s).
Proof. intros Hp. rewrite <- (Hp s) at 3. by destruct (m s). Qed.

(** ** Lists in the store *)

Lemma py_index_in (len i : nat) :
  (i < len)%nat -> py_index len (Z.of_nat i) = Some i.
Proof.
  intros Hi. unfold py_index.
  destruct (Z.ltb_spec (Z.of_nat i) 0) as [Hneg|_]; [lia|].
  destruct (Z.leb_spec 0 (Z.of_nat i)) as [_|Hneg]; [|lia].
  destruct (Z.ltb_spec (Z.of_nat i) (Z.of_nat len)) as [_|Hge]; [|lia].
  simpl. by rewrite Nat2Z.id.
Qed.

Lemma py_index_nil (i : Z) : py_index 0 i = None.
Proof.
  unfold py_index. change (Z.of_nat 0) with 0. rewrite Z.add_0_r.
  replace (if i <? 0 then i else i) with i by (by destruct (i <? 0)).
  destruct (Z.leb_spec 0 i); destruct (Z.ltb_spec i 0);
    simpl; try reflexivity; lia.
Qed.

Lemma deref_alloc_old (s : state) (l : list pyval) (r : loc) :
  (r < length (heap s))%nat ->
  deref (mkState (heap s ++ [l]) (stdout s)) r = deref s r.
Proof. intros Hr. unfold deref. simpl. by rewrite lookup_app_l. Qed.

Lemma deref_alloc_new (s : state) (l : list pyval) :
  deref (mkState (heap s ++ [l]) (stdout s)) (length (heap s)) = l.
Proof.
  unfold deref. simpl.
  rewrite lookup_app_r by lia. by rewrite Nat.sub_diag.
Qed.

Lemma deref_alloc (s : state) (l : list pyval) (r : loc) :
  deref (mkState (heap s ++ [l]) (stdout s)) r =
    if decide (r = length (heap s)) then l else deref s r.
Proof.
  destruct (decide (r = length (heap s))) as [->|Hne]; [apply deref_alloc_new|].
  destruct (decide (r < length (heap s))%nat); [by apply deref_alloc_old|].
  unfold deref. simpl.
  rewrite !lookup_ge_None_2; [done | lia | rewrite length_app; simpl; lia].
Qed.

Lemma deref_nonempty_allocated (s : state) (r : loc) :
  deref s r <> [] -> (r < length (heap s))%nat.
Proof.
  unfold deref. intros H.
  destruct (heap s !! r) eqn:E; [by eapply lookup_lt_Some | by destruct H].
Qed.

Lemma list_getitem_in (s : state) (a : loc) (i : nat) (v : pyval) :
  deref s a !! i = Some v -> list_getitem a (Z.of_nat i) s = (Ret v, s).
Proof.
  intros H. unfold list_getitem.
  rewrite py_index_in by (by eapply lookup_lt_Some). simpl. by rewrite H.
Qed.

Lemma list_setitem_empty (s : state) (a : loc) (i : Z) (v : pyval) :
  deref s a = [] -> list_setitem a i v s = (Raise IndexError, s).
Proof.
  intros H. unfold list_setitem. rewrite H. simpl. by rewrite py_index_nil.
Qed.

Lemma run_setitem_last (h : list (list pyval)) (out : list (string * shown))
    (l : list pyval) (i : nat) (v : pyval) :
  (i < length l)%nat ->
  list_setitem (length h) (Z.of_nat i) v (mkState (h ++ [l]) out) =
    (Ret tt, mkState (h ++ [<[i := v]> l]) out).
Proof.
  intros Hi. unfold list_setitem.
  change (deref (mkState (h ++ [l]) out) (length h))
    with (deref (mkState (heap (mkState h out) ++ [l]) (stdout (mkState h out)))
                (length (heap (mkState h out)))).
  rewrite deref_alloc_new, py_index_in by exact Hi. cbn [heap stdout].
  do 2 f_equal. rewrite insert_app_r_alt by lia. by rewrite Nat.sub_diag.
Qed.

Lemma run_Vector__init__ (a : loc) (s : state) :
  Vector__init__ a s =
    (Ret (mkVector (length (heap s)) (length (deref s a))),
     mkState (heap s ++ [deref s a]) (stdout s)).
Proof.
  unfold Vector__init__. rewrite run_bind. unfold list_copy, list_new at 1.
  rewrite run_bind. unfold list_len. rewrite deref_alloc.
  destruct (decide (a = length (heap s))); reflexivity.
Qed.

(** ** Expressions that leave the store alone *)

Lemma pure_read_lift {A : Type} (o : outcome A) : pure_read (lift o).
Proof. intros s. reflexivity. Qed.

Lemma pure_read_getitem (a : loc) (i : Z) : pure_read (list_getitem a i).
Proof. intros s. unfold list_getitem. by destruct (_ ≫= _). Qed.

Lemma pure_read_bind {A B : Type} (m : M A) (k : A -> M B) :
  pure_read m -> (forall a, pure_read (k a)) -> pure_read (m ≫= k).
Proof.
  intros Hm Hk s. rewrite run_bind. specialize (Hm s).
  destruct (m s) as [[a|e] s']; simpl in Hm; subst s'; [apply Hk | reflexivity].
Qed.

Lemma pure_read_for_in {S : Type} (xs : list nat) (body : nat -> S -> M S) (acc : S) :
  (forall i acc', pure_read (body i acc')) -> pure_read (for_in xs body acc).
Proof.
  intros Hb. revert acc. induction xs as [|i xs IH]; intros acc; simpl.
  - intros s. reflexivity.
  - apply pure_read_bind; [apply Hb | apply IH].
Qed.

Create HintDb pure_read.
#[local] Hint Resolve pure_read_lift pure_read_getitem pure_read_bind : pure_read.

Lemma pure_read_dot (x y : Vector) : pure_read (dot x y).
Proof.
  unfold dot. apply pure_read_for_in. intros i acc. auto 10 with pure_read.
Qed.

Lemma pure_read_abs (x : Vector) : pure_read (Vector__abs__ x).
Proof.
  unfold Vector__abs__. apply pure_read_bind; [apply pure_read_dot|].
  intros d. apply pure_read_lift.
Qed.

Lemma pure_read_cross_term (x y : Vector) (i j : Z) :
  pure_read (cross_term x y i j).
Proof. unfold cross_term. auto 20 with pure_read. Qed.

#[local] Hint Resolve pure_read_dot pure_read_abs pure_read_cross_term : pure_read.

(** ** Arithmetic *)

(** The only exception a conversion or an arithmetic operation raises
    is [OverflowError]. *)
Lemma to_float_raises (v : pyval) (e : exn) :
  Num.to_float v = Raise e -> e = OverflowError.
Proof.
  destruct v as [z|f]; simpl; [|discriminate].
  unfold Num.of_int. destruct (binary_normalize _ _ _ _ _); congruence.
Qed.

Lemma arith_raises (fz : Z -> Z -> Z) (ff : float -> float -> float)
    (a b : pyval) (e : exn) :
  Num.arith fz ff a b = Raise e -> e = OverflowError.
Proof.
  unfold Num.arith.
  destruct a as [x|x], b as [y|y]; try discriminate;
    cbn -[Num.of_int];
    repeat match goal with
    | |- context [Num.of_int ?z] =>
        let E := fresh "E" in
        destruct (Num.of_int z) eqn:E; cbn -[Num.of_int];
        [| apply (to_float_raises (PyInt z)) in E]
    end; congruence.
Qed.

(** ** The element loops of [__add__], [__sub__] and [scale] *)

Lemma Vector__add__elementwise (x y : Vector) :
  Vector__add__ x y = elementwise (_n x) (fun i =>
    a ← list_getitem (_coords x) (Z.of_nat i);
    b ← list_getitem (_coords y) (Z.of_nat i);
    lift (Num.add a b)).
Proof. reflexivity. Qed.

Lemma Vector__sub__elementwise (x y : Vector) :
  Vector__sub__ x y = elementwise (_n x) (fun i =>
    a ← list_getitem (_coords x) (Z.of_nat i);
    b ← list_getitem (_coords y) (Z.of_nat i);
    lift (Num.sub a b)).
Proof. reflexivity. Qed.

Lemma scale_elementwise (x : Vector) (alpha : pyval) :
  scale x alpha = elementwise (_n x) (fun i =>
    a ← list_getitem (_coords x) (Z.of_nat i);
    lift (Num.mul alpha a)).
Proof. reflexivity. Qed.

(** Into the empty [result] the first assignment already fails. *)
Lemma store_element_empty (s : state) (result : loc) (i : nat) (element : M pyval) :
  pure_read element -> deref s result = [] ->
  store_element result i element s =
    (Raise (match (element s).1 with Ret _ => IndexError | Raise e => e end), s).
Proof.
  intros Hp Hr. unfold store_element. rewrite run_bind. specialize (Hp s).
  destruct (element s) as [[v|e] s']; simpl in *; subst s'; [|reflexivity].
  by apply list_setitem_empty.
Qed.

Lemma elementwise_raises (s : state) (n : nat) (element : nat -> M pyval) :
  (0 < n)%nat -> pure_read (element 0%nat) ->
  elementwise n element s =
    (Raise (match (element 0%nat (with_empty_result s)).1 with
            | Ret _ => IndexError
            | Raise e => e
            end), with_empty_result s).
Proof.
  intros Hn Hp. unfold elementwise. rewrite run_bind. unfold list_new at 1.
  rewrite run_bind. destruct n as [|n]; [lia|].
  unfold range. cbn [seq for_in]. rewrite run_bind.
  by rewrite store_element_empty; [| | apply deref_alloc_new].
Qed.

Lemma elementwise_zero (s : state) (element : nat -> M pyval) :
  elementwise 0 element s =
    (Ret (mkVector (S (length (heap s))) 0),
     mkState (heap s ++ [[]; []]) (stdout s)).
Proof.
  unfold elementwise. rewrite run_bind. unfold list_new at 1.
  rewrite run_bind. unfold range. cbn [seq for_in].
  change ((mret tt : M unit) (mkState (heap s ++ [[]]) (stdout s)))
    with (Ret tt, mkState (heap s ++ [[]]) (stdout s)).
  cbv iota. rewrite run_Vector__init__.
  rewrite deref_alloc_new. simpl. rewrite length_app, <- app_assoc. simpl.
  do 3 f_equal. lia.
Qed.

Lemma first_read_after_alloc (s : state) (x : Vector) (l : list pyval) :
  wf s x -> (0 < _n x)%nat ->
  exists v, list_getitem (_coords x) (Z.of_nat 0) (mkState (heap s ++ [l]) (stdout s))
            = (Ret v, mkState (heap s ++ [l]) (stdout s)).
Proof.
  unfold wf. intros Hw Hn.
  destruct (deref s (_coords x)) as [|v l'] eqn:E; [simpl in Hw; lia|].
  exists v. apply list_getitem_in. rewrite deref_alloc_old.
  - by rewrite E.
  - apply deref_nonempty_allocated. by rewrite E.
Qed.

(** C1 (the code departs from it): for two Vectors of equal dimension
    [n >= 1], [x + y] never returns a Vector.  [result] starts as the
    empty list and [result[0] = ...] is an assignment outside it, so the
    call raises [IndexError] in its first iteration (or [OverflowError],
    when the first sum itself is out of the float range), leaving only
    the empty [result] behind. *)
Theorem Vector__add__raises (s : state) (x y : Vector) :
  wf s x -> wf s y -> _n x = _n y -> (0 < _n x)%nat ->
  exists e, Vector__add__ x y s = (Raise e, with_empty_result s)
            /\ (e = IndexError \/ e = OverflowError).
Proof.
  intros Hx Hy Hn Hpos.
  destruct (first_read_after_alloc s x [] Hx Hpos) as (a & Ha).
  destruct (first_read_after_alloc s y [] Hy ltac:(lia)) as (b & Hb).
  rewrite Vector__add__elementwise.
  rewrite elementwise_raises; [| exact Hpos | auto 10 with pure_read].
  eexists. split; [reflexivity|].
  unfold with_empty_result. rewrite run_bind, Ha, run_bind, Hb. unfold lift. simpl.
  destruct (Num.add a b) eqn:E; [by left | right; by eapply arith_raises].
Qed.

(** [Vector([1.0]) + Vector([2.0])], the smallest failing input. *)
Lemma Vector__add__raises_witness :
  exists e,
    Vector__add__ (mkVector 0 1) (mkVector 1 1) (state_of [[PyFloat 1]; [PyFloat 2]])
      = (Raise e, with_empty_result (state_of [[PyFloat 1]; [PyFloat 2]]))
    /\ (e = IndexError \/ e = OverflowError).
Proof.
  apply Vector__add__raises; [reflexivity | reflexivity | reflexivity | simpl; lia].
Defined.

(** The same call evaluated: the exception is [IndexError]. *)
Example add_one_dimensional :
  Vector__add__ (mkVector 0 1) (mkVector 1 1) (state_of [[PyFloat 1]; [PyFloat 2]])
  = (Raise IndexError, mkState [[PyFloat 1]; [PyFloat 2]; []] []).
Proof. vm_compute. reflexivity. Qed.

(** C10: on zero-dimensional Vectors, [x + y], [x - y] and
    [x.scale(alpha)] each return a zero-dimensional Vector and raise
    nothing: the element loop runs no iteration. *)
Theorem zero_dimension_elementwise (s : state) (x y : Vector) (alpha : pyval) :
  _n x = 0%nat -> _n y = 0%nat ->
  returns_zero_vector (Vector__add__ x y s)
  /\ returns_zero_vector (Vector__sub__ x y s)
  /\ returns_zero_vector (scale x alpha s).
Proof.
  intros Hx Hy.
  assert (H : forall element, returns_zero_vector (elementwise (_n x) element s)).
  { intros element. rewrite Hx, elementwise_zero. eexists. simpl.
    split; [reflexivity|]. split; [reflexivity|].
    unfold deref. simpl. rewrite lookup_app_r by lia.
    by replace (S (length (heap s)) - length (heap s))%nat with 1%nat by lia. }
  rewrite Vector__add__elementwise, Vector__sub__elementwise, scale_elementwise.
  repeat split; apply H.
Qed.

(** [Vector([])] twice, and the scalar [10.0]. *)
Lemma zero_dimension_elementwise_witness :
  returns_zero_vector (Vector__add__ (mkVector 0 0) (mkVector 1 0) (state_of [[]; []]))
  /\ returns_zero_vector (Vector__sub__ (mkVector 0 0) (mkVector 1 0) (state_of [[]; []]))
  /\ returns_zero_vector (scale (mkVector 0 0) (PyFloat 10) (state_of [[]; []])).
Proof.
  apply zero_dimension_elementwise; reflexivity.
Defined.

(** ** The dot product *)

Lemma dot_loop (s : state) (x y : Vector) (m k : nat) (acc : pyval) :
  (k + m)%nat = length (deref s (_coords x)) ->
  length (deref s (_coords y)) = length (deref s (_coords x)) ->
  for_in (seq k m) (dot_body x y) acc s =
    (sum_of_products acc (drop k (deref s (_coords x))) (drop k (deref s (_coords y))), s).
Proof.
  revert k acc. induction m as [|m IH]; intros k acc Hk Hlen.
  - simpl. rewrite !drop_ge by lia. reflexivity.
  - destruct (lookup_lt_is_Some_2 (deref s (_coords x)) k ltac:(lia)) as [a Ha].
    destruct (lookup_lt_is_Some_2 (deref s (_coords y)) k ltac:(lia)) as [b Hb].
    rewrite (drop_S _ _ _ Ha), (drop_S _ _ _ Hb).
    cbn [seq for_in sum_of_products]. rewrite run_bind. unfold dot_body at 1.
    rewrite run_bind, (list_getitem_in _ _ _ _ Ha).
    rewrite run_bind, (list_getitem_in _ _ _ _ Hb).
    rewrite run_lift_bind.
    destruct (Num.mul a b) as [p|e]; [|reflexivity].
    unfold lift at 1. cbn [mbind outcome_mbind outcome_bind].
    destruct (Num.add acc p) as [acc'|e]; [|reflexivity].
    apply IH; lia.
Qed.

Lemma sum_of_products_ints (acc : Z) (xs ys : list Z) :
  sum_of_products (PyInt acc) (PyInt <$> xs) (PyInt <$> ys) =
    Ret (PyInt (acc + int_sum_of_products xs ys)).
Proof.
  revert acc ys. induction xs as [|x xs IH]; intros acc ys.
  - simpl. by rewrite Z.add_0_r.
  - destruct ys as [|y ys]; [simpl; by rewrite Z.add_0_r|].
    cbn -[Z.mul Z.add]. cbn [mbind outcome_mbind outcome_bind]. rewrite IH.
    do 2 f_equal. simpl. lia.
Qed.

(** C4: for two Vectors of equal dimension, [x.dot(y)] returns the sum
    of the element-wise products of their coordinates, accumulated left
    to right from the integer [0] in Python's arithmetic, and changes
    nothing; for dimension zero it returns [0]; and on integer
    coordinates, where nothing rounds, it is the exact sum
    [x0*y0 + x1*y1 + ...]. *)
Theorem dot_sum_of_products (s : state) (x y : Vector) :
  wf s x -> wf s y -> _n x = _n y ->
  dot x y s = (sum_of_products (PyInt 0) (deref s (_coords x)) (deref s (_coords y)), s)
  /\ (_n x = 0%nat -> dot x y s = (Ret (PyInt 0), s))
  /\ (forall xs ys : list Z,
        deref s (_coords x) = PyInt <$> xs -> deref s (_coords y) = PyInt <$> ys ->
        dot x y s = (Ret (PyInt (int_sum_of_products xs ys)), s)).
Proof.
  unfold wf. intros Hx Hy Hn.
  assert (H : dot x y s =
    (sum_of_products (PyInt 0) (deref s (_coords x)) (deref s (_coords y)), s)).
  { change (dot x y) with (for_in (seq 0 (_n x)) (dot_body x y) (PyInt 0)).
    rewrite dot_loop by lia. by rewrite !drop_0. }
  split; [exact H|]. split.
  - intros H0. rewrite H.
    destruct (deref s (_coords x)); [reflexivity | simpl in Hx; lia].
  - intros xs ys Exs Eys. rewrite H, Exs, Eys. by rewrite sum_of_products_ints.
Qed.

(** [x.dot(y)] for the two Vectors of [main]. *)
Lemma dot_sum_of_products_witness :
  dot main_x main_y main_state =
    (sum_of_products (PyInt 0) (deref main_state (_coords main_x))
                     (deref main_state (_coords main_y)), main_state)
  /\ (_n main_x = 0%nat -> dot main_x main_y main_state = (Ret (PyInt 0), main_state))
  /\ (forall xs ys : list Z,
        deref main_state (_coords main_x) = PyInt <$> xs ->
        deref main_state (_coords main_y) = PyInt <$> ys ->
        dot main_x main_y main_state = (Ret (PyInt (int_sum_of_products xs ys)), main_state)).
Proof.
  apply dot_sum_of_products; reflexivity.
Defined.

(** The values of that call and of [abs(x)], as [main] would print them. *)
Example main_dot_and_magnitude :
  dot main_x main_y main_state = (Ret (PyFloat 25), main_state)
  /\ Vector__abs__ main_x main_state = (Ret 5.477225575051661%float, main_state).
Proof. split; vm_compute; reflexivity. Qed.

(** ** Frames: what a statement leaves untouched *)

Lemma frames_ret {A : Type} (b : nat) (a : A) (Q : A -> Prop) :
  Q a -> frames b (mret a) Q.
Proof. intros HQ s Hs. repeat split; auto. intros a' [= <-]. exact HQ. Qed.

Lemma frames_bind {A B : Type} (b : nat) (m : M A) (k : A -> M B)
    (P : A -> Prop) (Q : B -> Prop) :
  frames b m P -> (forall a, P a -> frames b (k a) Q) -> frames b (m ≫= k) Q.
Proof.
  intros Hm Hk s Hs. rewrite run_bind.
  destruct (Hm s Hs) as (Ht & Hl & HP).
  destruct (m s) as [[a|e] s']; simpl in *.
  - destruct (Hk a (HP a eq_refl) s' Hl) as (Ht' & Hl' & HQ).
    repeat split; [congruence | exact Hl' | exact HQ].
  - repeat split; [exact Ht | exact Hl | discriminate].
Qed.

Lemma frames_weaken {A : Type} (b : nat) (m : M A) (P Q : A -> Prop) :
  frames b m P -> (forall a, P a -> Q a) -> frames b m Q.
Proof.
  intros Hm HPQ s Hs. destruct (Hm s Hs) as (Ht & Hl & HP).
  repeat split; auto.
Qed.

Lemma frames_pure {A : Type} (b : nat) (m : M A) :
  pure_read m -> frames b m (fun _ => True).
Proof. intros Hp s Hs. rewrite (Hp s). repeat split; auto. Qed.

Lemma frames_new (b : nat) (l : list pyval) :
  frames b (list_new l) (fun r => (b <= r)%nat).
Proof.
  intros s Hs. unfold list_new. simpl. repeat split.
  - by rewrite take_app_le.
  - rewrite length_app. lia.
  - intros a [= <-]. exact Hs.
Qed.

Lemma frames_setitem (b : nat) (a : loc) (i : Z) (v : pyval) :
  (b <= a)%nat -> frames b (list_setitem a i v) (fun _ => True).
Proof.
  intros Ha s Hs. unfold list_setitem.
  destruct (py_index _ _); simpl; repeat split; auto.
  - by rewrite take_insert_ge.
  - by rewrite length_insert.
Qed.

Lemma frames_for_in {S : Type} (b : nat) (xs : list nat)
    (body : nat -> S -> M S) (acc : S) :
  (forall i acc', frames b (body i acc') (fun _ => True)) ->
  frames b (for_in xs body acc) (fun _ => True).
Proof.
  intros Hb. revert acc. induction xs as [|i xs IH]; intros acc; simpl.
  - by apply frames_ret.
  - eapply frames_bind; [apply Hb | intros acc' _; apply IH].
Qed.

Lemma frames_Vector__init__ (b : nat) (a : loc) :
  frames b (Vector__init__ a) (fun v => (b <= _coords v)%nat).
Proof.
  unfold Vector__init__.
  eapply frames_bind; [intros s Hs; unfold list_copy; by apply frames_new|].
  intros c Hc.
  eapply frames_bind; [apply frames_pure; intros s; reflexivity|]. intros n _.
  by apply frames_ret.
Qed.

Lemma frames_elementwise (b n : nat) (element : nat -> M pyval) :
  (forall i, pure_read (element i)) ->
  frames b (elementwise n element) (fun v => (b <= _coords v)%nat).
Proof.
  intros Hp. unfold elementwise.
  eapply frames_bind; [apply frames_new|]. intros result Hr.
  eapply frames_bind.
  - apply frames_for_in. intros i _. unfold store_element.
    eapply frames_bind; [apply frames_pure, Hp|]. intros v _.
    by apply frames_setitem.
  - intros _ _. apply frames_Vector__init__.
Qed.

Lemma frames_cross (b : nat) (x y : Vector) :
  frames b (cross x y) (fun _ => True).
Proof.
  unfold cross.
  eapply frames_bind; [apply frames_new|]. intros result Hr.
  destruct (Nat.eqb (_n x) 3).
  - repeat (eapply frames_bind;
      [first [ solve [apply frames_pure; auto 20 with pure_read]
             | by apply frames_setitem ] | intros ? _]).
    by apply frames_ret.
  - eapply frames_bind; [apply frames_new|]. intros r' _. by apply frames_ret.
Qed.

Lemma frames_direction (b : nat) (x : Vector) :
  frames b (direction x) (fun _ => True).
Proof.
  unfold direction.
  eapply frames_bind; [apply frames_pure; auto with pure_read|]. intros m _.
  eapply frames_bind; [apply frames_pure; auto with pure_read|]. intros alpha _.
  rewrite scale_elementwise.
  eapply frames_weaken; [apply frames_elementwise|auto].
  intros i. auto 10 with pure_read.
Qed.

Lemma frames_same {A : Type} (m : M A) (Q : A -> Prop) (s : state) (r : loc) :
  frames (length (heap s)) m Q -> (r < length (heap s))%nat ->
  deref (m s).2 r = deref s r.
Proof.
  intros Hf Hr. destruct (Hf s (le_n _)) as (Ht & _ & _).
  unfold deref. f_equal.
  transitivity (take (length (heap s)) (heap (m s).2) !! r).
  - symmetry. by apply lookup_take_lt.
  - by rewrite Ht, take_ge.
Qed.

(** ** Degree trigonometry *)

Lemma reduce_int (d : Z) : reduce (PyInt d) = Ret (PyInt (d mod 360)).
Proof. reflexivity. Qed.

Lemma reduce_plus_360 (d : Z) : reduce (PyInt (d + 360)) = reduce (PyInt d).
Proof.
  rewrite !reduce_int. do 2 f_equal.
  replace (d + 360) with (d + 1 * 360) by lia. apply Z_mod_plus_full.
Qed.

(** A reduced integer angle converts to a float exactly. *)
Lemma of_int_small (z : Z) :
  0 <= z < 360 -> Num.of_int z <> Raise OverflowError.
Proof.
  intros Hz.
  assert (H : forallb (fun n =>
    match Num.of_int (Z.of_nat n) with Ret _ => true | Raise _ => false end)
    (seq 0 360) = true) by (vm_compute; reflexivity).
  rewrite forallb_forall in H.
  specialize (H (Z.to_nat z)). rewrite Z2Nat.id in H by lia.
  destruct (Num.of_int z); [discriminate|].
  discriminate H. apply in_seq. lia.
Qed.

Lemma float_rem_360 (f : float) : exists r, Num.float_rem f 360 = Ret r.
Proof.
  unfold Num.float_rem.
  change (PrimFloat.eqb 360 0) with false. cbv iota.
  destruct (negb _); [destruct (negb _)|]; eauto.
Qed.

(** [deg % 360] never raises, and what it returns converts to a float. *)
Lemma reduce_returns (d : pyval) :
  exists r, reduce d = Ret r /\ exists f, Num.to_float r = Ret f.
Proof.
  destruct d as [z|f].
  - rewrite reduce_int. eexists. split; [reflexivity|]. simpl.
    pose proof (of_int_small (z mod 360) ltac:(apply Z.mod_pos_bound; lia)) as H.
    destruct (Num.of_int (z mod 360)) eqn:E; [eauto|].
    destruct H. by rewrite (to_float_raises (PyInt (z mod 360)) e E).
  - unfold reduce, Num.modulo. cbn [Num.to_float].
    change (Num.of_int 360) with (Ret 360%float).
    cbn [mbind outcome_mbind outcome_bind].
    destruct (float_rem_360 f) as [r ->]. cbn [outcome_bind].
    eexists. split; [reflexivity|]. simpl. eauto.
Qed.

Section TrigProperties.

Variables math_radians math_sin math_cos : float -> float.

Lemma sin_d_returns (d : pyval) :
  exists v, sin_d math_radians math_sin d = Ret v
            /\ exists g, Num.to_float v = Ret g.
Proof.
  unfold sin_d. destruct (reduce_returns d) as (r & -> & f & Hf).
  cbn [mbind outcome_mbind outcome_bind].
  repeat (destruct (Num.eqb _ _);
    [eexists; split; [reflexivity | vm_compute; eauto]|]).
  rewrite Hf. cbn [outcome_bind]. eexists. split; [reflexivity | simpl; eauto].
Qed.

Lemma cos_d_returns (d : pyval) :
  exists v, cos_d math_radians math_cos d = Ret v
            /\ exists g, Num.to_float v = Ret g.
Proof.
  unfold cos_d. destruct (reduce_returns d) as (r & -> & f & Hf).
  cbn [mbind outcome_mbind outcome_bind].
  repeat (destruct (Num.eqb _ _);
    [eexists; split; [reflexivity | vm_compute; eauto]|]).
  rewrite Hf. cbn [outcome_bind]. eexists. split; [reflexivity | simpl; eauto].
Qed.

(** C5, as amended: [sin_d] and [cos_d] return the exact values at the
    cardinal angles ([cos_d(90) == 0.0], [cos_d(180) == -1.0],
    [cos_d(270) == 0.0], [sin_d(90) == 1.0], [sin_d(180) == 0.0],
    [sin_d(270) == -1.0]); for every integer angle [d] both reduce it
    modulo 360 into [0, 360), raise nothing, and return for [d + 360]
    exactly what they return for [d]; and [sin_d(450) == 1.0].  The
    same does not extend to every float angle (see the counterexample
    below). *)
Theorem sin_d_cos_d_exact_and_periodic_on_integers :
  (returns_equal (cos_d math_radians math_cos (PyInt 90)) (PyFloat 0) = true
   /\ returns_equal (cos_d math_radians math_cos (PyInt 180)) (PyFloat (-1)) = true
   /\ returns_equal (cos_d math_radians math_cos (PyInt 270)) (PyFloat 0) = true
   /\ returns_equal (sin_d math_radians math_sin (PyInt 90)) (PyFloat 1) = true
   /\ returns_equal (sin_d math_radians math_sin (PyInt 180)) (PyFloat 0) = true
   /\ returns_equal (sin_d math_radians math_sin (PyInt 270)) (PyFloat (-1)) = true)
  /\ (forall d : Z,
        exists r, reduce (PyInt d) = Ret (PyInt r) /\ 0 <= r < 360
                  /\ in_0_360 (PyInt r) = true)
  /\ (forall d : Z,
        Num.add (PyInt d) (PyInt 360) ≫= sin_d math_radians math_sin
          = sin_d math_radians math_sin (PyInt d)
        /\ Num.add (PyInt d) (PyInt 360) ≫= cos_d math_radians math_cos
          = cos_d math_radians math_cos (PyInt d))
  /\ (forall d : Z,
        exists v w, sin_d math_radians math_sin (PyInt d) = Ret v
                    /\ cos_d math_radians math_cos (PyInt d) = Ret w)
  /\ returns_equal (sin_d math_radians math_sin (PyInt 450)) (PyFloat 1) = true.
Proof.
  split; [repeat split; vm_compute; reflexivity|].
  split.
  { intros d. exists (d mod 360). split; [apply reduce_int|].
    pose proof (Z.mod_pos_bound d 360 ltac:(lia)) as Hb. split; [exact Hb|].
    unfold in_0_360, Num.geb.
    destruct (Z.leb_spec 0 (d mod 360)); [|lia].
    destruct (Z.leb_spec 360 (d mod 360)); [lia|reflexivity]. }
  split.
  { intros d. cbn [Num.add Num.arith mbind outcome_mbind outcome_bind].
    unfold sin_d, cos_d. by rewrite reduce_plus_360. }
  split; [|vm_compute; reflexivity].
  intros d. destruct (sin_d_returns (PyInt d)) as (v & Hv & _).
  destruct (cos_d_returns (PyInt d)) as (w & Hw & _). eauto.
Qed.

End TrigProperties.

(** C5, counterexample: [deg % 360] does not always land in [0, 360).
    For the float [-1e-20] Python's remainder is [-1e-20 + 360], which
    rounds to [360.0] itself. *)
Lemma reduce_tiny_negative_float_is_360 :
  reduce (PyFloat (-1e-20)) = Ret (PyFloat 360)
  /\ in_0_360 (PyFloat 360) = false.
Proof. split; vm_compute; reflexivity. Qed.

(** Adding 360 to a float angle rounds, so the two reduced angles can
    differ: [0.1] against [(0.1 + 360) % 360]. *)
Example reduce_float_plus_360 :
  reduce (PyFloat 0.1) = Ret (PyFloat 0.1)
  /\ (Num.add (PyFloat 0.1) (PyInt 360) ≫= reduce) = Ret (PyFloat 0.10000000000002274).
Proof. split; vm_compute; reflexivity. Qed.

(** ** class Spherical *)

Lemma mul_float_returns (f : float) (v : pyval) :
  (exists g, Num.to_float v = Ret g) ->
  exists w, Num.mul (PyFloat f) v = Ret (PyFloat w).
Proof.
  intros [g Hg]. unfold Num.mul, Num.arith.
  cbn [Num.to_float mbind outcome_mbind outcome_bind].
  destruct v; rewrite Hg; cbn [outcome_bind]; eauto.
Qed.

Lemma run_getitem_literal (s : state) (a : loc) (l : list pyval) (i : nat) (v : pyval) :
  deref s a = l -> l !! i = Some v -> list_getitem a (Z.of_nat i) s = (Ret v, s).
Proof. intros <- H. by apply list_getitem_in. Qed.

Lemma run_plain_Vector (l : list pyval) (s : state) :
  plain_Vector l s =
    (Ret (mkVector (S (length (heap s))) (length l)),
     mkState (heap s ++ [l; l]) (stdout s)).
Proof.
  unfold plain_Vector. rewrite run_bind. unfold list_new at 1.
  rewrite run_Vector__init__. cbn [heap stdout].
  rewrite deref_alloc_new, length_app, <- app_assoc. simpl.
  do 3 f_equal. lia.
Qed.

Section SphericalProperties.

Variables math_radians math_sin math_cos : float -> float.

(** With a float radius the three products are always defined. *)
Lemma spherical_coords_float (r : float) (azimuth elevation : pyval) :
  exists x y z,
    spherical_coords math_radians math_sin math_cos (PyFloat r) azimuth elevation
      = Ret (x, y, z).
Proof.
  unfold spherical_coords.
  destruct (sin_d_returns math_radians math_sin azimuth) as (sa & Hsa & Fsa).
  destruct (sin_d_returns math_radians math_sin elevation) as (se & Hse & Fse).
  destruct (cos_d_returns math_radians math_cos azimuth) as (ca & Hca & Fca).
  destruct (cos_d_returns math_radians math_cos elevation) as (ce & Hce & Fce).
  rewrite Hsa, Hse, Hca, Hce. cbn [mbind outcome_mbind outcome_bind].
  destruct (mul_float_returns r ca Fca) as [t1 ->].
  cbn [mbind outcome_mbind outcome_bind].
  destruct (mul_float_returns t1 se Fse) as [x ->].
  cbn [mbind outcome_mbind outcome_bind].
  destruct (mul_float_returns r sa Fsa) as [t2 ->].
  cbn [mbind outcome_mbind outcome_bind].
  destruct (mul_float_returns t2 se Fse) as [y ->].
  cbn [mbind outcome_mbind outcome_bind].
  destruct (mul_float_returns r ce Fce) as [z ->].
  cbn [mbind outcome_mbind outcome_bind]. eauto.
Qed.

(** C7: constructing a Spherical from [(r, azimuth, elevation)] is
    constructing the plain Vector [Vector([x, y, z])] with
    [x = r * cos_d(azimuth) * sin_d(elevation)],
    [y = r * sin_d(azimuth) * sin_d(elevation)] and
    [z = r * cos_d(elevation)]: the same object state (dimension 3, a
    private list holding [x, y, z]) and the same store, so every Vector
    operation behaves on it as on that plain Vector.  The products are
    defined for every float radius and all angles; where one of them
    raises (an int radius beyond the float range), so does the
    constructor. *)
Theorem Spherical_is_a_plain_Vector
    (s : state) (a : loc) (r azimuth elevation : pyval) :
  deref s a = [r; azimuth; elevation] ->
  Spherical__init__ math_radians math_sin math_cos a s =
    match spherical_coords math_radians math_sin math_cos r azimuth elevation with
    | Ret (x, y, z) => plain_Vector [x; y; z] s
    | Raise e => (Raise e, s)
    end
  /\ (forall x y z,
        spherical_coords math_radians math_sin math_cos r azimuth elevation
          = Ret (x, y, z) ->
        Spherical__init__ math_radians math_sin math_cos a s =
          (Ret (mkVector (S (length (heap s))) 3),
           mkState (heap s ++ [[x; y; z]; [x; y; z]]) (stdout s)))
  /\ ((exists f, r = PyFloat f) ->
        exists x y z,
          spherical_coords math_radians math_sin math_cos r azimuth elevation
            = Ret (x, y, z)).
Proof.
  intros Ha.
  assert (H : Spherical__init__ math_radians math_sin math_cos a s =
    match spherical_coords math_radians math_sin math_cos r azimuth elevation with
    | Ret (x, y, z) => plain_Vector [x; y; z] s
    | Raise e => (Raise e, s)
    end).
  { unfold Spherical__init__, spherical_coords.
    pose proof (run_getitem_literal s a _ 0 r Ha eq_refl) as H0.
    pose proof (run_getitem_literal s a _ 1 azimuth Ha eq_refl) as H1.
    pose proof (run_getitem_literal s a _ 2 elevation Ha eq_refl) as H2.
    change (Z.of_nat 0) with 0 in H0. change (Z.of_nat 1) with 1 in H1.
    change (Z.of_nat 2) with 2 in H2.
    repeat first
      [ rewrite run_bind, H0 | rewrite run_bind, H1 | rewrite run_bind, H2
      | rewrite run_lift_bind;
        lazymatch goal with
        | |- match ?o with Ret _ => _ | Raise _ => _ end = _ =>
            first
              [ match goal with E : o = _ |- _ => rewrite E end
              | let E := fresh "E" in
                destruct o eqn:E;
                cbn [mbind outcome_mbind outcome_bind]; [|reflexivity] ]
        end ].
    reflexivity. }
  split; [exact H|]. split.
  - intros x y z E. rewrite H, E. apply run_plain_Vector.
  - intros [f ->]. apply spherical_coords_float.
Qed.

Lemma frames_Spherical__init__ (b : nat) (a : loc) :
  frames b (Spherical__init__ math_radians math_sin math_cos a) (fun _ => True).
Proof.
  unfold Spherical__init__.
  repeat (eapply frames_bind;
    [solve [apply frames_pure; auto 20 with pure_read] | intros ? _]).
  eapply frames_bind; [apply frames_new|]. intros l _.
  eapply frames_weaken; [apply frames_Vector__init__|auto].
Qed.

(** No operation changes a list that exists when it starts. *)
Lemma exec_frame (c : call) (s : state) (r : loc) :
  (r < length (heap s))%nat ->
  deref (exec math_radians math_sin math_cos c s) r = deref s r.
Proof.
  intros Hr. destruct c; cbn [exec]; eapply frames_same; try exact Hr.
  - apply frames_Vector__init__.
  - apply frames_Spherical__init__.
  - apply frames_pure. unfold Vector__getitem__. auto with pure_read.
  - rewrite Vector__add__elementwise. apply frames_elementwise.
    intros. auto 10 with pure_read.
  - rewrite Vector__sub__elementwise. apply frames_elementwise.
    intros. auto 10 with pure_read.
  - rewrite scale_elementwise. apply frames_elementwise.
    intros. auto 10 with pure_read.
  - apply frames_pure. auto with pure_read.
  - apply frames_cross.
  - apply frames_pure. auto with pure_read.
  - apply frames_direction.
  - apply frames_pure. intros s0. reflexivity.
  - apply frames_pure. intros s0. reflexivity.
Qed.

(** C9: construction copies.  [Vector(a)] on an existing list [a]
    returns a Vector whose coordinates are the elements of [a] held in
    a list of its own, so that whatever [a] is changed to afterwards the
    Vector reports the coordinates it was built with; and no operation
    of the module, whether it returns or raises, changes any list that
    exists when it starts, hence the coordinates of any existing
    Vector. *)
Theorem construction_copies_and_nothing_mutates :
  (forall (s : state) (a : loc),
      (a < length (heap s))%nat ->
      exists v s',
        Vector__init__ a s = (Ret v, s')
        /\ deref s' (_coords v) = deref s a
        /\ _n v = length (deref s a)
        /\ forall l, deref (mutate a l s') (_coords v) = deref s a)
  /\ (forall (c : call) (s : state) (x : Vector),
      (_coords x < length (heap s))%nat ->
      deref (exec math_radians math_sin math_cos c s) (_coords x)
        = deref s (_coords x)).
Proof.
  split; [|intros c s x; apply exec_frame].
  intros s a Ha. rewrite run_Vector__init__. do 2 eexists.
  split; [reflexivity|]. simpl. split; [apply deref_alloc_new|].
  split; [reflexivity|]. intros l. unfold mutate, deref. simpl.
  rewrite list_lookup_insert_ne by lia.
  rewrite lookup_app_r by lia. by rewrite Nat.sub_diag.
Qed.

End SphericalProperties.

(** [Spherical([2.0, 90, 450])]: both angles are cardinal, so the
    C library is never called. *)
Lemma Spherical_is_a_plain_Vector_witness :
  Spherical__init__ no_libm no_libm no_libm 0%nat
      (state_of [[PyFloat 2; PyInt 90; PyInt 450]])
    = (Ret (mkVector 2 3),
       state_of [[PyFloat 2; PyInt 90; PyInt 450];
                 [PyFloat 0; PyFloat 2; PyFloat 0];
                 [PyFloat 0; PyFloat 2; PyFloat 0]]).
Proof.
  apply (proj1 (proj2 (Spherical_is_a_plain_Vector no_libm no_libm no_libm
    (state_of [[PyFloat 2; PyInt 90; PyInt 450]]) 0%nat
    (PyFloat 2) (PyInt 90) (PyInt 450) eq_refl))).
  vm_compute. reflexivity.
Defined.

(** [x = Vector(xCoords)], then [xCoords] changed to anything; and
    [x.scale(10.0)] on the [x] of [main]. *)
Lemma construction_copies_and_nothing_mutates_witness :
  (exists v s',
      Vector__init__ 0%nat (state_of [xCoords_literal]) = (Ret v, s')
      /\ deref s' (_coords v) = xCoords_literal
      /\ _n v = 4%nat
      /\ forall l, deref (mutate 0%nat l s') (_coords v) = xCoords_literal)
  /\ deref (exec no_libm no_libm no_libm (CallScale main_x (PyFloat 10)) main_state)
           (_coords main_x)
     = xCoords_literal.
Proof.
  split.
  - apply (proj1 (construction_copies_and_nothing_mutates no_libm no_libm no_libm)
             (state_of [xCoords_literal]) 0%nat). simpl. lia.
  - apply (proj2 (construction_copies_and_nothing_mutates no_libm no_libm no_libm)
             (CallScale main_x (PyFloat 10)) main_state main_x). simpl. lia.
Defined.

(** ** Magnitude and direction *)

Lemma is_nan_spec (f : float) : is_nan f = true <-> Prim2SF f = S754_nan.
Proof.
  unfold is_nan. rewrite FloatAxioms.eqb_spec. unfold SFeqb.
  destruct (Prim2SF f) as [?|[]| |[] ? ?]; simpl;
    rewrite ?Z.compare_refl, ?Pos.compare_cont_refl; simpl;
    split; congruence.
Qed.

(** A float that is a zero, [+inf] or finite and positive is [>= 0]. *)
Lemma geb_zero_spec (f : float) :
  match Prim2SF f with
  | S754_zero _ | S754_infinity false | S754_finite false _ _ => True
  | _ => False
  end -> Num.geb (PyFloat f) (PyInt 0) = true.
Proof.
  unfold Num.geb, Num.compare_float_int.
  destruct (Prim2SF f) as [?|[]| |[] m e]; try contradiction; intros _;
    try reflexivity.
  destruct (Z.leb_spec 0 e) as [He|He]; [|reflexivity].
  assert (0 < Z.pos m * 2 ^ e)
    by (apply Z.mul_pos_pos; [lia | by apply Z.pow_pos_nonneg]).
  by destruct (Z.compare_spec (Z.pos m * 2 ^ e) 0); try lia.
Qed.

(** Rounding a positive value never yields a negative one. *)
Lemma binary_round_aux_sign (mx ex : Z) (lx : location) :
  match binary_round_aux prec emax false mx ex lx with
  | S754_zero false | S754_infinity false | S754_finite false _ _ | S754_nan => True
  | _ => False
  end.
Proof.
  unfold binary_round_aux.
  destruct (shr_fexp _ _ _ _ _) as [mrs' e'].
  destruct (shr_fexp _ _ _ _ _) as [mrs'' e''].
  destruct (shr_m mrs''); [exact I | | exact I].
  by destruct (_ <=? _).
Qed.

(** A binary64 square root is a NaN or is not negative. *)
Lemma sqrt_nan_or_nonneg (f : float) :
  is_nan (PrimFloat.sqrt f) = true
  \/ Num.geb (PyFloat (PrimFloat.sqrt f)) (PyInt 0) = true.
Proof.
  destruct (Prim2SF (PrimFloat.sqrt f)) eqn:E.
  - right. apply geb_zero_spec. by rewrite E.
  - right. apply geb_zero_spec. rewrite E.
    rewrite sqrt_spec in E. unfold SF64sqrt, SFsqrt in E.
    destruct (Prim2SF f) as [?|[]| |[] m e]; try discriminate.
    + by injection E as <-.
    + destruct (SFsqrt_core_binary _ _ _ _) as [[mz ez] lz].
      pose proof (binary_round_aux_sign mz ez lz) as H. rewrite E in H.
      by destruct s.
  - left. by apply is_nan_spec.
  - right. apply geb_zero_spec. rewrite E.
    rewrite sqrt_spec in E. unfold SF64sqrt, SFsqrt in E.
    destruct (Prim2SF f) as [?|[]| |[] m' e']; try discriminate.
    destruct (SFsqrt_core_binary _ _ _ _) as [[mz ez] lz].
    pose proof (binary_round_aux_sign mz ez lz) as H. rewrite E in H.
    by destruct s.
Qed.

(** C6, as amended: whenever [abs(x)] returns a value [m], [m] is
    [math.sqrt] of [x.dot(x)], nothing has changed, and [m >= 0] unless
    [m] is a NaN. *)
Theorem magnitude_is_sqrt_of_dot (s s' : state) (x : Vector) (m : float) :
  Vector__abs__ x s = (Ret m, s') ->
  s' = s
  /\ (exists d, dot x x s = (Ret d, s) /\ Num.sqrt d = Ret m)
  /\ (is_nan m = true \/ Num.geb (PyFloat m) (PyInt 0) = true).
Proof.
  unfold Vector__abs__. rewrite run_bind.
  rewrite (run_pure (dot x x) s) by apply pure_read_dot.
  destruct ((dot x x s).1) as [d|e]; [|discriminate].
  unfold lift. intros [= Hs <-]. split; [reflexivity|].
  split; [by exists d|].
  unfold Num.sqrt in Hs.
  destruct (Num.to_float d) as [f|e]; [|discriminate].
  cbn [mbind outcome_mbind outcome_bind] in Hs.
  destruct (_ && _); [discriminate|]. injection Hs as <-.
  apply sqrt_nan_or_nonneg.
Qed.

(** [abs(x)] for the [x] of [main]: 5.477225575051661. *)
Lemma magnitude_is_sqrt_of_dot_witness :
  main_state = main_state
  /\ (exists d, dot main_x main_x main_state = (Ret d, main_state)
                /\ Num.sqrt d = Ret 5.477225575051661%float)
  /\ (is_nan 5.477225575051661 = true
      \/ Num.geb (PyFloat 5.477225575051661) (PyInt 0) = true).
Proof.
  apply (magnitude_is_sqrt_of_dot main_state main_state main_x 5.477225575051661).
  vm_compute. reflexivity.
Defined.

(** C6, counterexample: [abs(Vector([nan]))] returns a NaN, and
    [nan >= 0] is false. *)
Lemma magnitude_of_nan_is_not_nonneg :
  (x ← plain_Vector [PyFloat nan]; Vector__abs__ x) initial
    = (Ret nan, state_of [[PyFloat nan]; [PyFloat nan]])
  /\ Num.geb (PyFloat nan) (PyInt 0) = false.
Proof. split; vm_compute; reflexivity. Qed.

(** C8, as amended: with [m] the value of [abs(x)], [x.direction()] is
    [x.scale(1.0 / m)] when [m != 0] (a NaN included), and raises
    [ZeroDivisionError], changing nothing, when [m == 0]: the division
    is unguarded and Python's float division raises on a zero divisor. *)
Theorem direction_divides_by_magnitude (s s' : state) (x : Vector) (m : float) :
  Vector__abs__ x s = (Ret m, s') ->
  (PrimFloat.eqb m 0 = false ->
     direction x s = scale x (PyFloat (1 / m)) s)
  /\ (PrimFloat.eqb m 0 = true ->
     direction x s = (Raise ZeroDivisionError, s)).
Proof.
  intros Hm.
  assert (s' = s) as ->.
  { pose proof (pure_read_abs x s) as H. by rewrite Hm in H. }
  unfold direction. rewrite run_bind, Hm, run_lift_bind. unfold Num.truediv.
  split; intros ->; reflexivity.
Qed.

(** [x.direction()] for the [x] of [main], whose magnitude is not zero. *)
Lemma direction_divides_by_magnitude_witness :
  (PrimFloat.eqb 5.477225575051661 0 = false ->
     direction main_x main_state
       = scale main_x (PyFloat (1 / 5.477225575051661)) main_state)
  /\ (PrimFloat.eqb 5.477225575051661 0 = true ->
     direction main_x main_state = (Raise ZeroDivisionError, main_state)).
Proof.
  apply (direction_divides_by_magnitude main_state main_state main_x 5.477225575051661).
  vm_compute. reflexivity.
Defined.

(** C8, counterexample: [Vector([0.0, 0.0]).direction()] raises
    [ZeroDivisionError]; no infinity or NaN is produced. *)
Lemma direction_of_zero_vector_raises :
  (x ← plain_Vector [PyFloat 0; PyFloat 0]; direction x) initial
    = (Raise ZeroDivisionError, state_of [[PyFloat 0; PyFloat 0]; [PyFloat 0; PyFloat 0]]).
Proof. vm_compute. reflexivity. Qed.

(** ** The cross product *)

Lemma run_cross_term (s : state) (x y : Vector) (i j : nat) (a b c d : pyval) :
  deref s (_coords x) !! i = Some a -> deref s (_coords y) !! j = Some b ->
  deref s (_coords x) !! j = Some c -> deref s (_coords y) !! i = Some d ->
  cross_term x y (Z.of_nat i) (Z.of_nat j) s = (cross_coordinate a b c d, s).
Proof.
  intros Ha Hb Hc Hd. unfold cross_term, cross_coordinate.
  rewrite run_bind, (list_getitem_in _ _ _ _ Ha).
  rewrite run_bind, (list_getitem_in _ _ _ _ Hb).
  rewrite run_lift_bind. destruct (Num.mul a b) as [p|e]; [|reflexivity].
  rewrite run_bind, (list_getitem_in _ _ _ _ Hc).
  rewrite run_bind, (list_getitem_in _ _ _ _ Hd).
  rewrite run_lift_bind. cbn [mbind outcome_mbind outcome_bind].
  destruct (Num.mul c d) as [q|e]; reflexivity.
Qed.

(** C3 (the code departs from it): on two 3-dimensional Vectors
    [U.cross(V)] computes the standard cross product
    [(U2V3 - U3V2, U3V1 - U1V3, U1V2 - U2V1)], but returns it as the
    bare list [result], not as a Vector; and when the dimension of [U]
    is not 3 it returns a new empty list and raises nothing. *)
Theorem cross_returns_a_bare_list :
  (forall (s : state) (U V : Vector) (u1 u2 u3 v1 v2 v3 w1 w2 w3 : pyval),
      _n U = 3%nat ->
      deref s (_coords U) = [u1; u2; u3] ->
      deref s (_coords V) = [v1; v2; v3] ->
      cross_coordinate u2 v3 u3 v2 = Ret w1 ->
      cross_coordinate u3 v1 u1 v3 = Ret w2 ->
      cross_coordinate u1 v2 u2 v1 = Ret w3 ->
      cross U V s =
        (Ret (ObjList (length (heap s))),
         mkState (heap s ++ [[w1; w2; w3]]) (stdout s)))
  /\ (forall (s : state) (U V : Vector),
      _n U <> 3%nat ->
      cross U V s =
        (Ret (ObjList (S (length (heap s)))),
         mkState (heap s ++ [[PyInt 0; PyInt 0; PyInt 0]; []]) (stdout s))).
Proof.
  split.
  - intros [h out] U V u1 u2 u3 v1 v2 v3 w1 w2 w3 Hn HU HV H1 H2 H3.
    assert (HaU : (_coords U < length h)%nat).
    { apply (deref_nonempty_allocated (mkState h out)). by rewrite HU. }
    assert (HaV : (_coords V < length h)%nat).
    { apply (deref_nonempty_allocated (mkState h out)). by rewrite HV. }
    unfold cross. rewrite run_bind. unfold list_new at 1. cbn [heap stdout].
    rewrite Hn. cbn [Nat.eqb].
    assert (Hterm : forall l (i j : nat) a b c d,
      [u1; u2; u3] !! i = Some a -> [v1; v2; v3] !! j = Some b ->
      [u1; u2; u3] !! j = Some c -> [v1; v2; v3] !! i = Some d ->
      cross_term U V (Z.of_nat i) (Z.of_nat j) (mkState (h ++ [l]) out) =
        (cross_coordinate a b c d, mkState (h ++ [l]) out)).
    { intros l i j a b c d Ea Eb Ec Ed.
      apply run_cross_term;
        rewrite (deref_alloc_old (mkState h out) l) by assumption;
        rewrite ?HU, ?HV; assumption. }
    rewrite run_bind, (Hterm _ 1%nat 2%nat u2 v3 u3 v2) by reflexivity. rewrite H1.
    rewrite run_bind, (run_setitem_last h out _ 0)
      by (rewrite ?length_insert; simpl; lia).
    rewrite run_bind, (Hterm _ 2%nat 0%nat u3 v1 u1 v3) by reflexivity. rewrite H2.
    rewrite run_bind, (run_setitem_last h out _ 1)
      by (rewrite ?length_insert; simpl; lia).
    rewrite run_bind, (Hterm _ 0%nat 1%nat u1 v2 u2 v1) by reflexivity. rewrite H3.
    rewrite run_bind, (run_setitem_last h out _ 2)
      by (rewrite ?length_insert; simpl; lia).
    reflexivity.
  - intros s U V Hn. unfold cross. rewrite run_bind. unfold list_new at 1.
    destruct (Nat.eqb_spec (_n U) 3) as [E|_]; [contradiction|].
    rewrite run_bind. unfold list_new. cbn [heap stdout].
    rewrite length_app, <- app_assoc. simpl. rewrite Nat.add_1_r. reflexivity.
Qed.

(** [Vector([1, 0, 0]).cross(Vector([0, 1, 0]))] is the list
    [[0, 0, 1]]; and [x.cross(y)] for the 4-dimensional Vectors of
    [main] is the empty list. *)
Lemma cross_returns_a_bare_list_witness :
  cross (mkVector 0 3) (mkVector 1 3)
      (state_of [[PyInt 1; PyInt 0; PyInt 0]; [PyInt 0; PyInt 1; PyInt 0]])
    = (Ret (ObjList 2),
       state_of [[PyInt 1; PyInt 0; PyInt 0]; [PyInt 0; PyInt 1; PyInt 0];
                 [PyInt 0; PyInt 0; PyInt 1]])
  /\ cross main_x main_y main_state
    = (Ret (ObjList 5),
       state_of [xCoords_literal; yCoords_literal; xCoords_literal; yCoords_literal;
                 [PyInt 0; PyInt 0; PyInt 0]; []]).
Proof.
  split.
  - apply (proj1 cross_returns_a_bare_list
      (state_of [[PyInt 1; PyInt 0; PyInt 0]; [PyInt 0; PyInt 1; PyInt 0]])
      (mkVector 0 3) (mkVector 1 3)
      (PyInt 1) (PyInt 0) (PyInt 0) (PyInt 0) (PyInt 1) (PyInt 0));
      reflexivity.
  - apply (proj2 cross_returns_a_bare_list main_state main_x main_y).
    simpl. lia.
Defined.

(** ** The demonstration routine *)

(** C2 (the code departs from it): [main] prints [x] and [y] and then
    raises [IndexError] while evaluating [x + y]; the sum, the scaled
    copy, the magnitudes and the dot product are never printed.  (The
    values [x.dot(y) = 25.0] and [abs(x) = 5.477225575051661] hold of
    the calls taken alone: [main_dot_and_magnitude].) *)
Theorem main_raises_IndexError :
  main initial =
    (Raise IndexError,
     mkState [xCoords_literal; yCoords_literal; xCoords_literal; yCoords_literal; []]
             main_output).
Proof. vm_compute. reflexivity. Qed.

(** * Further properties *)

(** ** Indexing *)

Lemma py_index_out (len i : nat) :
  (len <= i)%nat -> py_index len (Z.of_nat i) = None.
Proof.
  intros Hi. unfold py_index.
  destruct (Z.ltb_spec (Z.of_nat i) 0) as [Hneg|_]; [lia|].
  destruct (Z.ltb_spec (Z.of_nat i) (Z.of_nat len)) as [Hlt|_]; [lia|].
  by rewrite andb_false_r.
Qed.

Lemma list_getitem_out (s : state) (a : loc) (i : nat) :
  deref s a !! i = None -> list_getitem a (Z.of_nat i) s = (Raise IndexError, s).
Proof.
  intros H. unfold list_getitem.
  rewrite py_index_out by (by apply lookup_ge_None). reflexivity.
Qed.

Lemma list_getitem_raises (s s' : state) (a : loc) (i : Z) (e : exn) :
  list_getitem a i s = (Raise e, s') -> e = IndexError.
Proof. unfold list_getitem. destruct (_ ≫= _); congruence. Qed.

Lemma py_index_spec (len : nat) (i : Z) :
  py_index len i =
    if decide (0 <= i < Z.of_nat len) then Some (Z.to_nat i)
    else if decide (- Z.of_nat len <= i < 0) then Some (Z.to_nat (i + Z.of_nat len))
    else None.
Proof.
  unfold py_index.
  destruct (Z.ltb_spec i 0);
    match goal with |- context [(0 <=? ?j) && (?j <? ?n)] =>
      destruct (Z.leb_spec 0 j); destruct (Z.ltb_spec j n) end;
    repeat case_decide; simpl; try reflexivity; lia.
Qed.

(** X1: [x[i]] is the coordinate at [i] for [0 <= i < n], the coordinate
    at [n + i] for [-n <= i < 0] (Python counts a negative index from
    the end), and raises [IndexError] for any other [i]; the state is
    never changed. *)
Theorem Vector__getitem__index (s : state) (x : Vector) (i : Z) :
  let l := deref s (_coords x) in
  let n := Z.of_nat (length l) in
  (0 <= i < n ->
     exists v, l !! Z.to_nat i = Some v /\ Vector__getitem__ x i s = (Ret v, s))
  /\ (- n <= i < 0 ->
     exists v, l !! Z.to_nat (n + i) = Some v /\ Vector__getitem__ x i s = (Ret v, s))
  /\ (i < - n \/ n <= i -> Vector__getitem__ x i s = (Raise IndexError, s)).
Proof.
  intros l n. unfold Vector__getitem__, list_getitem. fold l.
  rewrite py_index_spec. fold n.
  repeat split.
  - intros Hi. rewrite decide_True by exact Hi. simpl.
    destruct (lookup_lt_is_Some_2 l (Z.to_nat i) ltac:(lia)) as [v Hv].
    exists v. by rewrite Hv.
  - intros Hi. rewrite decide_False by lia. rewrite decide_True by exact Hi. simpl.
    rewrite (Z.add_comm i n).
    destruct (lookup_lt_is_Some_2 l (Z.to_nat (n + i)) ltac:(lia)) as [v Hv].
    exists v. by rewrite Hv.
  - intros Hi. rewrite !decide_False by lia. reflexivity.
Qed.

Lemma Vector__getitem__index_witness :
  (exists v, xCoords_literal !! Z.to_nat 1 = Some v
             /\ Vector__getitem__ main_x 1 main_state = (Ret v, main_state))
  /\ (exists v, xCoords_literal !! Z.to_nat (4 + -1) = Some v
             /\ Vector__getitem__ main_x (-1) main_state = (Ret v, main_state))
  /\ Vector__getitem__ main_x 4 main_state = (Raise IndexError, main_state).
Proof.
  pose proof (Vector__getitem__index main_state main_x) as H.
  split; [|split].
  - apply (proj1 (H 1)). simpl. lia.
  - apply (proj1 (proj2 (H (-1)))). simpl. lia.
  - apply (proj2 (proj2 (H 4))). simpl. lia.
Defined.

(** ** Construction, then observation *)

(** X2: [x = Vector(a)] always returns, a well-formed Vector, and the
    Vector observes as the list it was built from: [len(x)] is
    [len(a)], [str(x)] is [str(a)] and [x[i]] does what [a[i]] does for
    every [i], out of range and negative ones included. *)
Theorem Vector_observes_as_its_source (s : state) (a : loc) :
  exists v s',
    Vector__init__ a s = (Ret v, s')
    /\ wf s' v
    /\ Vector__len__ v s' = (Ret (length (deref s a)), s')
    /\ Vector__str__ v s' = (Ret (ShowList (deref s a)), s')
    /\ forall i, Vector__getitem__ v i s' = ((list_getitem a i s).1, s').
Proof.
  rewrite run_Vector__init__. do 2 eexists. split; [reflexivity|].
  assert (E : deref (mkState (heap s ++ [deref s a]) (stdout s)) (length (heap s))
              = deref s a) by apply deref_alloc_new.
  repeat split.
  - unfold wf. simpl. by rewrite E.
  - unfold Vector__str__. simpl. by rewrite E.
  - intros i. unfold Vector__getitem__, list_getitem. simpl. rewrite E.
    by destruct (_ ≫= _).
Qed.

(** ** The element-wise operations on a Vector of positive dimension *)

Lemma first_element_raises (s : state) (x : Vector) (k : pyval -> M pyval) :
  wf s x -> (0 < _n x)%nat ->
  (forall a st e, (k a st).1 = Raise e -> e = IndexError \/ e = OverflowError) ->
  match ((a ← list_getitem (_coords x) (Z.of_nat 0); k a) (with_empty_result s)).1 with
  | Ret _ => IndexError
  | Raise e => e
  end = IndexError
  \/ match ((a ← list_getitem (_coords x) (Z.of_nat 0); k a) (with_empty_result s)).1 with
     | Ret _ => IndexError
     | Raise e => e
     end = OverflowError.
Proof.
  intros Hw Hn Hk.
  destruct (first_read_after_alloc s x [] Hw Hn) as (a & Ha).
  unfold with_empty_result. rewrite run_bind, Ha.
  destruct ((k a _).1) eqn:E; [by left | by apply Hk in E].
Qed.

(** X3: on a Vector [x] of dimension at least 1, [x + y], [x - y] (for
    any second operand [y]) and [x.scale(alpha)] (for any [alpha]) never
    return: [result] is created empty and [result[0] = ...] is outside
    it, so each raises [IndexError] (or an earlier [IndexError] reading
    a shorter [y], or [OverflowError] from the first element itself),
    leaving the empty [result] as the only change. *)
Theorem elementwise_operations_raise (s : state) (x : Vector) :
  wf s x -> (0 < _n x)%nat ->
  (forall y, exists e,
      Vector__add__ x y s = (Raise e, with_empty_result s)
      /\ (e = IndexError \/ e = OverflowError))
  /\ (forall y, exists e,
      Vector__sub__ x y s = (Raise e, with_empty_result s)
      /\ (e = IndexError \/ e = OverflowError))
  /\ (forall alpha, exists e,
      scale x alpha s = (Raise e, with_empty_result s)
      /\ (e = IndexError \/ e = OverflowError)).
Proof.
  intros Hw Hn.
  assert (Hbin : forall (y : Vector) (op : pyval -> pyval -> outcome pyval),
    (forall a b e, op a b = Raise e -> e = OverflowError) ->
    forall a st e,
      ((b ← list_getitem (_coords y) (Z.of_nat 0); lift (op a b)) st).1 = Raise e ->
      e = IndexError \/ e = OverflowError).
  { intros y op Hop a st e. rewrite run_bind.
    destruct (list_getitem (_coords y) (Z.of_nat 0) st) as [[b|e'] st'] eqn:E.
    - unfold lift. simpl. intros H. right. by eapply Hop.
    - simpl. intros [= <-]. left. by eapply list_getitem_raises. }
  repeat split.
  - intros y. rewrite Vector__add__elementwise.
    rewrite elementwise_raises; [| exact Hn | auto 10 with pure_read].
    eexists. split; [reflexivity|].
    apply (first_element_raises s x _ Hw Hn).
    apply Hbin. intros a b e. apply arith_raises.
  - intros y. rewrite Vector__sub__elementwise.
    rewrite elementwise_raises; [| exact Hn | auto 10 with pure_read].
    eexists. split; [reflexivity|].
    apply (first_element_raises s x _ Hw Hn).
    apply Hbin. intros a b e. apply arith_raises.
  - intros alpha. rewrite scale_elementwise.
    rewrite elementwise_raises; [| exact Hn | auto 10 with pure_read].
    eexists. split; [reflexivity|].
    apply (first_element_raises s x _ Hw Hn).
    intros a st e. unfold lift. simpl. intros H. right. by eapply arith_raises.
Qed.

Lemma elementwise_operations_raise_witness :
  (forall y, exists e,
      Vector__add__ main_x y main_state = (Raise e, with_empty_result main_state)
      /\ (e = IndexError \/ e = OverflowError))
  /\ (forall y, exists e,
      Vector__sub__ main_x y main_state = (Raise e, with_empty_result main_state)
      /\ (e = IndexError \/ e = OverflowError))
  /\ (forall alpha, exists e,
      scale main_x alpha main_state = (Raise e, with_empty_result main_state)
      /\ (e = IndexError \/ e = OverflowError)).
Proof.
  apply elementwise_operations_raise; [reflexivity | simpl; lia].
Defined.

(** X4: [x.direction()] never returns a Vector, whatever [x] is.  If the
    magnitude cannot be computed the call raises what [abs] raises; if
    it is zero (as it is for dimension 0) the division raises
    [ZeroDivisionError]; and otherwise the dimension is at least 1 and
    [scale] raises. *)
Theorem direction_always_raises (s : state) (x : Vector) :
  exists e s', direction x s = (Raise e, s').
Proof.
  unfold direction. rewrite run_bind.
  rewrite (run_pure (Vector__abs__ x) s) by apply pure_read_abs.
  destruct ((Vector__abs__ x s).1) as [m|e] eqn:Em; [|eauto].
  rewrite run_lift_bind. unfold Num.truediv.
  destruct (PrimFloat.eqb m 0) eqn:E0; [eauto|].
  destruct (_n x) as [|n] eqn:En.
  - exfalso. revert Em. unfold Vector__abs__, dot. rewrite En.
    unfold range. cbn [seq for_in]. rewrite run_bind.
    change ((mret (PyInt 0) : M pyval) s) with (Ret (PyInt 0), s). cbv iota.
    unfold lift.
    change (Num.sqrt (PyInt 0)) with (Ret 0%float : outcome float).
    simpl. intros [= <-]. discriminate E0.
  - rewrite scale_elementwise, En.
    rewrite elementwise_raises; [eauto | lia | auto 10 with pure_read].
Qed.

(** ** The dot product on operands of unequal dimension, and its symmetry *)

Lemma dot_loop_longer (s : state) (x y : Vector) (m k : nat) (acc : pyval) :
  (k + m)%nat = length (deref s (_coords x)) ->
  (length (deref s (_coords x)) <= length (deref s (_coords y)))%nat ->
  for_in (seq k m) (dot_body x y) acc s =
    (sum_of_products acc (drop k (deref s (_coords x)))
       (drop k (take (length (deref s (_coords x))) (deref s (_coords y)))), s).
Proof.
  revert k acc. induction m as [|m IH]; intros k acc Hk Hlen.
  - simpl. rewrite drop_ge by lia. reflexivity.
  - destruct (lookup_lt_is_Some_2 (deref s (_coords x)) k ltac:(lia)) as [a Ha].
    destruct (lookup_lt_is_Some_2 (deref s (_coords y)) k ltac:(lia)) as [b Hb].
    assert (Hb' : take (length (deref s (_coords x))) (deref s (_coords y)) !! k
                  = Some b) by (rewrite lookup_take_lt by lia; exact Hb).
    rewrite (drop_S _ _ _ Ha), (drop_S _ _ _ Hb').
    cbn [seq for_in sum_of_products]. rewrite run_bind. unfold dot_body at 1.
    rewrite run_bind, (list_getitem_in _ _ _ _ Ha).
    rewrite run_bind, (list_getitem_in _ _ _ _ Hb).
    rewrite run_lift_bind.
    destruct (Num.mul a b) as [p|e]; [|reflexivity].
    unfold lift at 1. cbn [mbind outcome_mbind outcome_bind].
    destruct (Num.add acc p) as [acc'|e]; [|reflexivity].
    apply IH; lia.
Qed.

Lemma dot_loop_shorter (s : state) (x y : Vector) (m k : nat) (acc : pyval) :
  (k + m)%nat = length (deref s (_coords x)) ->
  (length (deref s (_coords y)) < length (deref s (_coords x)))%nat ->
  (k <= length (deref s (_coords y)))%nat ->
  exists e, for_in (seq k m) (dot_body x y) acc s = (Raise e, s)
            /\ (e = IndexError \/ e = OverflowError).
Proof.
  revert k acc. induction m as [|m IH]; intros k acc Hk Hlen Hky; [lia|].
  destruct (lookup_lt_is_Some_2 (deref s (_coords x)) k ltac:(lia)) as [a Ha].
  cbn [seq for_in]. rewrite run_bind. unfold dot_body at 1.
  rewrite run_bind, (list_getitem_in _ _ _ _ Ha). rewrite run_bind.
  destruct (decide (k < length (deref s (_coords y)))%nat) as [Hlt|Hge].
  - destruct (lookup_lt_is_Some_2 (deref s (_coords y)) k Hlt) as [b Hb].
    rewrite (list_getitem_in _ _ _ _ Hb). rewrite run_lift_bind.
    destruct (Num.mul a b) as [p|e] eqn:Ep;
      [|exists e; split; [reflexivity | right; by eapply arith_raises]].
    unfold lift at 1.
    destruct (Num.add acc p) as [acc'|e] eqn:Es;
      [|exists e; split; [reflexivity | right; by eapply arith_raises]].
    apply IH; lia.
  - rewrite list_getitem_out by (apply lookup_ge_None; lia).
    exists IndexError. split; [reflexivity | by left].
Qed.

(** X5: [x.dot(y)] does not check dimensions.  When [y] has at least as
    many coordinates as [x], the extra coordinates of [y] are ignored:
    the result is the sum of products over the first [len(x)]
    coordinates.  When [y] has fewer, the call raises ([IndexError] at
    the first index [y] lacks, unless the arithmetic overflows before). *)
Theorem dot_unequal_dimensions (s : state) (x y : Vector) :
  wf s x -> wf s y ->
  ((_n x <= _n y)%nat ->
     dot x y s =
       (sum_of_products (PyInt 0) (deref s (_coords x))
          (take (_n x) (deref s (_coords y))), s))
  /\ ((_n y < _n x)%nat ->
     exists e, dot x y s = (Raise e, s) /\ (e = IndexError \/ e = OverflowError)).
Proof.
  unfold wf. intros Hx Hy.
  change (dot x y) with (for_in (seq 0 (_n x)) (dot_body x y) (PyInt 0)).
  split; intros Hn.
  - rewrite dot_loop_longer by lia. by rewrite !drop_0, Hx.
  - apply dot_loop_shorter; lia.
Qed.

Lemma dot_unequal_dimensions_witness :
  (dot (mkVector 0 1) (mkVector 1 2) (state_of [[PyInt 3]; [PyInt 5; PyInt 7]])
     = (Ret (PyInt 15), state_of [[PyInt 3]; [PyInt 5; PyInt 7]]))
  /\ (exists e,
        dot (mkVector 1 2) (mkVector 0 1) (state_of [[PyInt 3]; [PyInt 5; PyInt 7]])
          = (Raise e, state_of [[PyInt 3]; [PyInt 5; PyInt 7]])
        /\ (e = IndexError \/ e = OverflowError)).
Proof.
  split.
  - apply (proj1 (dot_unequal_dimensions
      (state_of [[PyInt 3]; [PyInt 5; PyInt 7]]) (mkVector 0 1) (mkVector 1 2)
      eq_refl eq_refl)). simpl. lia.
  - apply (proj2 (dot_unequal_dimensions
      (state_of [[PyInt 3]; [PyInt 5; PyInt 7]]) (mkVector 1 2) (mkVector 0 1)
      eq_refl eq_refl)). simpl. lia.
Defined.







(** ** The cross product, wrapped and dotted *)

Lemma cross_three_dimensional
    (s : state) (U V : Vector) (u1 u2 u3 v1 v2 v3 w1 w2 w3 : pyval) :
  _n U = 3%nat ->
  deref s (_coords U) = [u1; u2; u3] ->
  deref s (_coords V) = [v1; v2; v3] ->
  cross_coordinate u2 v3 u3 v2 = Ret w1 ->
  cross_coordinate u3 v1 u1 v3 = Ret w2 ->
  cross_coordinate u1 v2 u2 v1 = Ret w3 ->
  cross U V s =
    (Ret (ObjList (length (heap s))),
     mkState (heap s ++ [[w1; w2; w3]]) (stdout s)).
Proof.
  destruct s as [h out]. intros Hn HU HV H1 H2 H3.
  assert (HaU : (_coords U < length h)%nat).
  { apply (deref_nonempty_allocated (mkState h out)). by rewrite HU. }
  assert (HaV : (_coords V < length h)%nat).
  { apply (deref_nonempty_allocated (mkState h out)). by rewrite HV. }
  unfold cross. rewrite run_bind. unfold list_new at 1. cbn [heap stdout].
  rewrite Hn. cbn [Nat.eqb].
  assert (Hterm : forall l (i j : nat) a b c d,
    [u1; u2; u3] !! i = Some a -> [v1; v2; v3] !! j = Some b ->
    [u1; u2; u3] !! j = Some c -> [v1; v2; v3] !! i = Some d ->
    cross_term U V (Z.of_nat i) (Z.of_nat j) (mkState (h ++ [l]) out) =
      (cross_coordinate a b c d, mkState (h ++ [l]) out)).
  { intros l i j a b c d Ea Eb Ec Ed.
    apply run_cross_term;
      rewrite (deref_alloc_old (mkState h out) l) by assumption;
      rewrite ?HU, ?HV; assumption. }
  rewrite run_bind, (Hterm _ 1%nat 2%nat u2 v3 u3 v2) by reflexivity. rewrite H1.
  rewrite run_bind, (run_setitem_last h out _ 0)
    by (rewrite ?length_insert; simpl; lia).
  rewrite run_bind, (Hterm _ 2%nat 0%nat u3 v1 u1 v3) by reflexivity. rewrite H2.
  rewrite run_bind, (run_setitem_last h out _ 1)
    by (rewrite ?length_insert; simpl; lia).
  rewrite run_bind, (Hterm _ 0%nat 1%nat u1 v2 u2 v1) by reflexivity. rewrite H3.
  rewrite run_bind, (run_setitem_last h out _ 2)
    by (rewrite ?length_insert; simpl; lia).
  reflexivity.
Qed.

Lemma dot_of_integers (s : state) (x y : Vector) (xs ys : list Z) :
  _n x = length xs -> length ys = length xs ->
  deref s (_coords x) = PyInt <$> xs -> deref s (_coords y) = PyInt <$> ys ->
  dot x y s = (Ret (PyInt (int_sum_of_products xs ys)), s).
Proof.
  intros Hn Hlen Ex Ey.
  change (dot x y) with (for_in (seq 0 (_n x)) (dot_body x y) (PyInt 0)).
  rewrite dot_loop; rewrite ?Ex, ?Ey, ?length_fmap; try lia.
  rewrite !drop_0. by rewrite sum_of_products_ints.
Qed.

(** X7: on integer coordinates the list [U.cross(V)] returns, once
    wrapped by the caller in [Vector(...)], is orthogonal to both
    operands exactly: its dot product with [U] and with [V] is the
    integer [0]. *)
Theorem cross_orthogonal_on_integers
    (s : state) (U V : Vector) (u1 u2 u3 v1 v2 v3 : Z) :
  _n U = 3%nat -> _n V = 3%nat ->
  deref s (_coords U) = [PyInt u1; PyInt u2; PyInt u3] ->
  deref s (_coords V) = [PyInt v1; PyInt v2; PyInt v3] ->
  exists r s1 w s2,
    cross U V s = (Ret (ObjList r), s1)
    /\ Vector__init__ r s1 = (Ret w, s2)
    /\ deref s2 (_coords w) =
         [PyInt (u2 * v3 - u3 * v2); PyInt (u3 * v1 - u1 * v3); PyInt (u1 * v2 - u2 * v1)]
    /\ dot w U s2 = (Ret (PyInt 0), s2)
    /\ dot w V s2 = (Ret (PyInt 0), s2).
Proof.
  intros HnU HnV HU HV.
  assert (HaU : (_coords U < length (heap s))%nat).
  { apply deref_nonempty_allocated. by rewrite HU. }
  assert (HaV : (_coords V < length (heap s))%nat).
  { apply deref_nonempty_allocated. by rewrite HV. }
  set (ws := [u2 * v3 - u3 * v2; u3 * v1 - u1 * v3; u1 * v2 - u2 * v1]).
  set (s1 := mkState (heap s ++ [PyInt <$> ws]) (stdout s)).
  set (s2 := mkState (heap s1 ++ [PyInt <$> ws]) (stdout s1)).
  assert (E1 : deref s1 (length (heap s)) = PyInt <$> ws) by apply deref_alloc_new.
  assert (Ew : deref s2 (length (heap s1)) = PyInt <$> ws) by apply deref_alloc_new.
  assert (Hold : forall r, (r < length (heap s))%nat -> deref s2 r = deref s r).
  { intros r Hr. unfold s2. rewrite deref_alloc_old.
    - unfold s1. by rewrite deref_alloc_old.
    - unfold s1. cbn [heap]. rewrite length_app. lia. }
  exists (length (heap s)), s1, (mkVector (length (heap s1)) 3), s2.
  split; [by apply (cross_three_dimensional s U V _ _ _ _ _ _ _ _ _ HnU HU HV)|].
  split; [rewrite run_Vector__init__; unfold s2; by rewrite E1|].
  split; [exact Ew|].
  split.
  - rewrite (dot_of_integers s2 _ U ws [u1; u2; u3]);
      [| reflexivity | reflexivity | exact Ew | by rewrite Hold].
    assert (E : int_sum_of_products ws [u1; u2; u3] = 0)
      by (unfold ws; cbn [int_sum_of_products]; ring).
    by rewrite E.
  - rewrite (dot_of_integers s2 _ V ws [v1; v2; v3]);
      [| reflexivity | reflexivity | exact Ew | by rewrite Hold].
    assert (E : int_sum_of_products ws [v1; v2; v3] = 0)
      by (unfold ws; cbn [int_sum_of_products]; ring).
    by rewrite E.
Qed.

Lemma cross_orthogonal_on_integers_witness :
  exists r s1 w s2,
    cross (mkVector 0 3) (mkVector 1 3)
        (state_of [[PyInt 1; PyInt 2; PyInt 3]; [PyInt 4; PyInt 5; PyInt 6]])
      = (Ret (ObjList r), s1)
    /\ Vector__init__ r s1 = (Ret w, s2)
    /\ deref s2 (_coords w) = [PyInt (-3); PyInt 6; PyInt (-3)]
    /\ dot w (mkVector 0 3) s2 = (Ret (PyInt 0), s2)
    /\ dot w (mkVector 1 3) s2 = (Ret (PyInt 0), s2).
Proof.
  apply (cross_orthogonal_on_integers
    (state_of [[PyInt 1; PyInt 2; PyInt 3]; [PyInt 4; PyInt 5; PyInt 6]])
    (mkVector 0 3) (mkVector 1 3) 1 2 3 4 5 6); reflexivity.
Defined.

(** X8: for integer coordinates [abs(x)] is [math.sqrt] of the exact
    integer sum of the squares: nothing rounds before the square root
    is taken. *)
Theorem magnitude_of_integer_vector (s : state) (x : Vector) (xs : list Z) :
  wf s x -> deref s (_coords x) = PyInt <$> xs ->
  Vector__abs__ x s = (Num.sqrt (PyInt (int_sum_of_products xs xs)), s).
Proof.
  unfold wf. intros Hw Ex. unfold Vector__abs__. rewrite run_bind.
  rewrite (dot_of_integers s x x xs xs);
    [reflexivity | | reflexivity | exact Ex | exact Ex].
  by rewrite <- Hw, Ex, length_fmap.
Qed.

Lemma magnitude_of_integer_vector_witness :
  Vector__abs__ (mkVector 0 2) (state_of [[PyInt 3; PyInt 4]])
    = (Ret 5%float, state_of [[PyInt 3; PyInt 4]]).
Proof.
  apply (magnitude_of_integer_vector (state_of [[PyInt 3; PyInt 4]])
           (mkVector 0 2) [3; 4]); reflexivity.
Defined.

(** ** Degree trigonometry at every turn *)

Lemma reduce_plus_turns (c k : Z) :
  0 <= c < 360 -> reduce (PyInt (c + 360 * k)) = Ret (PyInt c).
Proof.
  intros Hc. rewrite reduce_int. do 2 f_equal.
  rewrite (Z.mul_comm 360 k), Z_mod_plus_full. by apply Z.mod_small.
Qed.

Section TrigEveryTurn.

Variables math_radians math_sin math_cos : float -> float.

(** X9: the exact values hold at every integer angle that is a right
    angle, whole turns and negative angles included: for every integer
    [k], [sin_d(90 + 360k)] is [1.0], [sin_d(180 + 360k)] is [0],
    [sin_d(270 + 360k)] is [-1.0], [cos_d(90 + 360k)] and
    [cos_d(270 + 360k)] are [0] and [cos_d(180 + 360k)] is [-1.0].
    Whole turns themselves are not special-cased: [sin_d(360k)] and
    [cos_d(360k)] call the C library at [radians(0.0)]. *)
Theorem sin_d_cos_d_every_turn (k : Z) :
  sin_d math_radians math_sin (PyInt (90 + 360 * k)) = Ret (PyFloat 1)
  /\ sin_d math_radians math_sin (PyInt (180 + 360 * k)) = Ret (PyInt 0)
  /\ sin_d math_radians math_sin (PyInt (270 + 360 * k)) = Ret (PyFloat (-1))
  /\ cos_d math_radians math_cos (PyInt (90 + 360 * k)) = Ret (PyInt 0)
  /\ cos_d math_radians math_cos (PyInt (180 + 360 * k)) = Ret (PyFloat (-1))
  /\ cos_d math_radians math_cos (PyInt (270 + 360 * k)) = Ret (PyInt 0)
  /\ sin_d math_radians math_sin (PyInt (0 + 360 * k))
       = Ret (PyFloat (math_sin (math_radians 0)))
  /\ cos_d math_radians math_cos (PyInt (0 + 360 * k))
       = Ret (PyFloat (math_cos (math_radians 0))).
Proof.
  unfold sin_d, cos_d.
  repeat split; rewrite reduce_plus_turns by lia; reflexivity.
Qed.

(** X10: [sin_d] and [cos_d] raise nothing of their own, for any int or
    float argument (huge ints, infinities and NaN included): [deg % 360]
    cannot divide by zero, and the reduced angle always converts to a
    float.  What they return converts to a float as well. *)
Theorem sin_d_cos_d_return (d : pyval) :
  exists v w f g,
    sin_d math_radians math_sin d = Ret v /\ Num.to_float v = Ret f
    /\ cos_d math_radians math_cos d = Ret w /\ Num.to_float w = Ret g.
Proof.
  destruct (sin_d_returns math_radians math_sin d) as (v & Hv & f & Hf).
  destruct (cos_d_returns math_radians math_cos d) as (w & Hw & g & Hg).
  exists v, w, f, g. auto.
Qed.

Lemma mul_raises (a b : pyval) (e : exn) : Num.mul a b = Raise e -> e = OverflowError.
Proof. apply arith_raises. Qed.

(** X11: [Spherical(a)] on a sequence of fewer than three elements
    raises and changes nothing: [IndexError] at the first missing
    element (or [OverflowError] from a product computed before it is
    reached). *)
Theorem Spherical_short_input_raises (s : state) (a : loc) :
  (length (deref s a) < 3)%nat ->
  exists e, Spherical__init__ math_radians math_sin math_cos a s = (Raise e, s)
            /\ (e = IndexError \/ e = OverflowError).
Proof.
  intros Hlen. unfold Spherical__init__.
  pose proof (list_getitem_in s a 0) as I0. change (Z.of_nat 0) with 0 in I0.
  pose proof (list_getitem_in s a 1) as I1. change (Z.of_nat 1) with 1 in I1.
  pose proof (list_getitem_out s a 0) as O0. change (Z.of_nat 0) with 0 in O0.
  pose proof (list_getitem_out s a 1) as O1. change (Z.of_nat 1) with 1 in O1.
  pose proof (list_getitem_out s a 2) as O2. change (Z.of_nat 2) with 2 in O2.
  destruct (deref s a) as [|r [|az [|el l]]] eqn:Ea; [| | |simpl in Hlen; lia].
  - rewrite run_bind, O0 by reflexivity.
    eexists. split; [reflexivity | by left].
  - rewrite run_bind, (I0 r) by reflexivity.
    rewrite run_bind, O1 by reflexivity.
    eexists. split; [reflexivity | by left].
  - rewrite run_bind, (I0 r) by reflexivity.
    rewrite run_bind, (I1 az) by reflexivity.
    destruct (cos_d_returns math_radians math_cos az) as (c & Hc & _).
    rewrite run_lift_bind, Hc, run_lift_bind.
    destruct (Num.mul r c) as [t|e] eqn:Et.
    + rewrite run_bind, O2 by reflexivity.
      eexists. split; [reflexivity | by left].
    + eexists. split; [reflexivity | right; by eapply mul_raises].
Qed.

End TrigEveryTurn.

Lemma Spherical_short_input_raises_witness :
  exists e,
    Spherical__init__ no_libm no_libm no_libm 0%nat (state_of [[PyFloat 2; PyInt 90]])
      = (Raise e, state_of [[PyFloat 2; PyInt 90]])
    /\ (e = IndexError \/ e = OverflowError).
Proof.
  apply (Spherical_short_input_raises no_libm no_libm no_libm
           (state_of [[PyFloat 2; PyInt 90]]) 0%nat).
  simpl. lia.
Defined.

(** ** Dimension zero *)

(** X12: on a Vector of dimension 0 (and any second operand) [dot]
    returns the integer [0], [abs] returns [0.0], [cross] returns a new
    empty list, and [direction] raises [ZeroDivisionError]; apart from
    the lists [cross] creates, nothing changes. *)
Theorem zero_dimension_scalars (s : state) (x y : Vector) :
  _n x = 0%nat ->
  dot x y s = (Ret (PyInt 0), s)
  /\ Vector__abs__ x s = (Ret 0%float, s)
  /\ direction x s = (Raise ZeroDivisionError, s)
  /\ cross x y s =
       (Ret (ObjList (S (length (heap s)))),
        mkState (heap s ++ [[PyInt 0; PyInt 0; PyInt 0]; []]) (stdout s)).
Proof.
  intros Hn.
  assert (Hdot : forall z, dot x z s = (Ret (PyInt 0), s)).
  { intros z. unfold dot. rewrite Hn. reflexivity. }
  assert (Habs : Vector__abs__ x s = (Ret 0%float, s)).
  { unfold Vector__abs__. rewrite run_bind, Hdot. reflexivity. }
  repeat split; [apply Hdot | exact Habs | |].
  - unfold direction. rewrite run_bind, Habs. reflexivity.
  - unfold cross. rewrite run_bind. unfold list_new at 1. rewrite Hn.
    cbn [Nat.eqb]. rewrite run_bind. unfold list_new. cbn [heap stdout].
    rewrite length_app, <- app_assoc. simpl. rewrite Nat.add_1_r. reflexivity.
Qed.

Lemma zero_dimension_scalars_witness :
  dot (mkVector 0 0) main_x (state_of [[]]) = (Ret (PyInt 0), state_of [[]])
  /\ Vector__abs__ (mkVector 0 0) (state_of [[]]) = (Ret 0%float, state_of [[]])
  /\ direction (mkVector 0 0) (state_of [[]]) = (Raise ZeroDivisionError, state_of [[]])
  /\ cross (mkVector 0 0) main_x (state_of [[]]) =
       (Ret (ObjList 2), state_of [[]; [PyInt 0; PyInt 0; PyInt 0]; []]).
Proof.
  apply (zero_dimension_scalars (state_of [[]]) (mkVector 0 0) main_x). reflexivity.
Defined.
